(** * clarai: the LLM provider dispatcher of [src/lib/llm.js]

    A shallow embedding of [generateContent] and [mockResponse], with the
    parts of the JavaScript host they touch (the process environment, [fetch],
    [console], [setTimeout]) as an explicit world, and the theorems that
    settle the specification's claims about the fallback chain. *)

From Stdlib Require Import String Ascii List Bool ZArith NArith QArith Lia.
From Stdlib Require Import DecimalString Sorted.
Import ListNotations.

Close Scope Q_scope.
Local Open Scope string_scope.
Local Open Scope list_scope.
Set Warnings "-register-all".

(** ** JavaScript values *)

(** The values [response.json()] can resolve to, plus [undefined].  An object
    keeps its own properties in order, as [JSON.stringify] prints them; a key
    is looked up from the front. *)
Inductive JsValue : Type :=
| JUndefined
| JNull
| JBool (b : bool)
| JNum (q : Q)
| JStr (s : string)
| JArr (items : list JsValue)
| JObj (props : list (string * JsValue)).

(** Every value the program throws or catches is an [Error] object: the ones
    it builds with [new Error(...)], the [TypeError] of a property read on
    [undefined] or [null], and the rejections of [fetch], [response.json()]
    and [response.text()]. *)
Record JsError : Type := mkError { name : string; message : string }.

Definition Error (msg : string) : JsError := mkError "Error" msg.

Definition show_nullish (v : JsValue) : string :=
  match v with JNull => "null" | _ => "undefined" end.

(** The wording is V8's (Node.js is the host: the code reads [process.env]). *)
Definition TypeError_read (base : JsValue) (key : string) : JsError :=
  mkError "TypeError"
    ("Cannot read properties of " ++ show_nullish base ++ " (reading '" ++ key ++ "')").

Module Js.

(** [x === 'lit'] where [x] comes from [process.env]: a string or undefined. *)
Definition strict_eq (x : option string) (lit : string) : bool :=
  match x with Some s => String.eqb s lit | None => false end.

(** ToBoolean on a string-or-undefined: only a non-empty string is truthy. *)
Definition truthy (x : option string) : bool :=
  match x with Some s => negb (String.eqb s "") | None => false end.

(** [x || dflt] on a string-or-undefined with a string default. *)
Definition or_else (x : option string) (dflt : string) : string :=
  match x with
  | Some s => if String.eqb s "" then dflt else s
  | None => dflt
  end.

(** A string-or-undefined where a string is wanted. *)
Definition to_string (x : option string) : string :=
  match x with Some s => s | None => "undefined" end.

(** [${b}] for a boolean. *)
Definition show_bool (b : bool) : string := if b then "true" else "false".

Fixpoint assoc (k : string) (props : list (string * JsValue)) : option JsValue :=
  match props with
  | [] => None
  | (k', v) :: rest => if String.eqb k k' then Some v else assoc k rest
  end.

(** A property key that is a canonical array index ("0", "1", "27", not "01"). *)
Definition index_of_key (k : string) : option nat :=
  match NilEmpty.uint_of_string k with
  | Some d =>
      let n := Nat.of_uint d in
      if String.eqb (NilZero.string_of_uint (Nat.to_uint n)) k then Some n else None
  | None => None
  end.

Definition num_of_nat (n : nat) : JsValue := JNum (inject_Z (Z.of_nat n)).

(** [undefined] and [null]: the values a property read throws on. *)
Definition nullish (v : JsValue) : bool :=
  match v with JUndefined | JNull => true | _ => false end.

(** [base.key] and [base[0]] (the key "0").  Own properties, array elements
    and string characters; a primitive has no own property.  Inherited
    methods ([toString], [at], ...) are left out: the program reads only
    [text], [choices], [0], [message] and [content], none of which any
    prototype defines.  A string is indexed by character here. *)
Definition get (base : JsValue) (key : string) : JsError + JsValue :=
  match base with
  | JUndefined | JNull => inl (TypeError_read base key)
  | JBool _ | JNum _ => inr JUndefined
  | JStr s =>
      if String.eqb key "length" then inr (num_of_nat (String.length s))
      else match index_of_key key with
           | Some i => match String.get i s with
                       | Some c => inr (JStr (String c EmptyString))
                       | None => inr JUndefined
                       end
           | None => inr JUndefined
           end
  | JArr items =>
      if String.eqb key "length" then inr (num_of_nat (List.length items))
      else match index_of_key key with
           | Some i => inr (nth i items JUndefined)
           | None => inr JUndefined
           end
  | JObj props =>
      match assoc key props with
      | Some v => inr v
      | None => inr JUndefined
      end
  end.

End Js.

(** ** The host: environment, network, console, timers *)

Record Request : Type := mkRequest {
  url : string;
  method : string;
  headers : list (string * string);
  (** the value handed to [JSON.stringify] to make the body *)
  body : JsValue
}.

(** What the program can observe of a response. [body_text] and [body_json]
    are what [response.text()] and [response.json()] settle to: [inl] is a
    rejection (for [json], a body that is not JSON). *)
Record Response : Type := mkResponse {
  status : Z;
  statusText : string;
  body_text : JsError + string;
  body_json : JsError + JsValue
}.

(** [response.ok]: the status is in the range 200-299. *)
Definition ok (r : Response) : bool := ((200 <=? status r) && (status r <=? 299))%Z.

(** How [fetch] settles.  A request that never settles is outside the model:
    the program has no timeout, and then it never returns. *)
Inductive FetchOutcome : Type :=
| Rejected (e : JsError)      (* network failure *)
| Resolved (r : Response).

(** The three [fetch] call sites of [generateContent]. *)
Inductive Provider : Type := Python | Local | Rapid.

Record Exchange : Type := mkExchange {
  site : Provider;
  request : Request;
  outcome : FetchOutcome
}.

Inductive LogLevel : Type := LLog | LWarn | LError.
Inductive LogArg : Type := AStr (s : string) | AErr (e : JsError).

(** What the program does not change: [process.env], and the network, which
    answers a request knowing everything exchanged before it. *)
Record Host : Type := mkHost {
  process_env : string -> option string;
  network : list Exchange -> Request -> FetchOutcome
}.

(** What the program changes: the exchanges made so far (oldest first), the
    console lines, and the milliseconds spent in [setTimeout]. *)
Record Effects : Type := mkEffects {
  sent : list Exchange;
  console : list (LogLevel * list LogArg);
  elapsed : N
}.

Definition no_effects : Effects := mkEffects [] [] 0%N.

(** ** Completions and the monad of statements *)

(** How a statement ends: normally, by [return v], or by throwing. *)
Inductive Completion (A : Type) : Type :=
| Normal (a : A)
| Return (v : JsValue)
| Throw (e : JsError).
Arguments Normal {A} a.
Arguments Return {A} v.
Arguments Throw {A} e.

Definition M (A : Type) : Type := Host -> Effects -> Completion A * Effects.

Definition pure {A} (a : A) : M A := fun _ st => (Normal a, st).

Definition bind {A B} (c : M A) (k : A -> M B) : M B :=
  fun h st =>
    match c h st with
    | (Normal a, st') => k a h st'
    | (Return v, st') => (Return v, st')
    | (Throw e, st') => (Throw e, st')
    end.

Declare Scope js_scope.
Delimit Scope js_scope with js.
Notation "x <- c ;; k" := (bind c (fun x => k))
  (at level 61, c at next level, right associativity) : js_scope.
Notation "c ;; k" := (bind c (fun _ => k))
  (at level 61, right associativity) : js_scope.
Local Open Scope js_scope.

Definition return_ {A} (v : JsValue) : M A := fun _ st => (Return v, st).
Definition throw {A} (e : JsError) : M A := fun _ st => (Throw e, st).

(** [await p] for a promise already settled as [r]. *)
Definition await {A} (r : JsError + A) : M A :=
  match r with inl e => throw e | inr a => pure a end.

(** [if (c) { s }] *)
Definition when (c : bool) (s : M unit) : M unit := if c then s else pure tt.

(** [try { s } catch (error) { handler }] *)
Definition try_catch (s : M unit) (handler : JsError -> M unit) : M unit :=
  fun h st =>
    match s h st with
    | (Throw e, st') => handler e h st'
    | done => done
    end.

(** The body of an [async function]: the promise resolves with the returned
    value ([undefined] when the body runs off its end) and rejects with what
    the body throws. *)
Definition async (bodyf : M unit) : M JsValue :=
  fun h st =>
    match bodyf h st with
    | (Normal _, st') => (Normal JUndefined, st')
    | (Return v, st') => (Normal v, st')
    | (Throw e, st') => (Throw e, st')
    end.

Definition getenv (var : string) : M (option string) :=
  fun h st => (Normal (process_env h var), st).

Definition console_emit (lvl : LogLevel) (args : list LogArg) : M unit :=
  fun _ st => (Normal tt, mkEffects (sent st) (console st ++ [(lvl, args)]) (elapsed st)).

Definition console_log := console_emit LLog.
Definition console_warn := console_emit LWarn.
Definition console_error := console_emit LError.

(** [await fetch(url, init)] at call site [p]. *)
Definition fetch (p : Provider) (req : Request) : M Response :=
  fun h st =>
    let out := network h (sent st) req in
    let st' := mkEffects (sent st ++ [mkExchange p req out]) (console st) (elapsed st) in
    match out with
    | Rejected e => (Throw e, st')
    | Resolved r => (Normal r, st')
    end.

(** [await new Promise(resolve => setTimeout(resolve, ms))] *)
Definition sleep (ms : N) : M unit :=
  fun _ st => (Normal tt, mkEffects (sent st) (console st) (elapsed st + ms)%N).

(** ** The program *)

(** Line 13: the model name both self-hosted strategies use. *)
Definition fixed_model : string := "meta-llama/Llama-4-Scout-17B-16E-Instruct".

Definition rapid_host : string :=
  "cheapest-gpt-4-turbo-gpt-4-vision-chatgpt-openai-ai-api.p.rapidapi.com".

Definition chat_message (role content : string) : JsValue :=
  JObj [("role", JStr role); ("content", JStr content)].

(** Lines 19-26: the request of the Python strategy. *)
Definition python_request (pythonUrl systemPrompt userMessage : string) : Request :=
  mkRequest pythonUrl "POST"
    [("Content-Type", "application/json")]
    (JObj [("prompt", JStr userMessage); ("system_prompt", JStr systemPrompt)]).

(** Lines 47-60: the request of the local strategy. *)
Definition local_request (localUrl targetModel systemPrompt userMessage : string) : Request :=
  mkRequest localUrl "POST"
    [("Content-Type", "application/json")]
    (JObj [("model", JStr targetModel);
           ("messages", JArr [chat_message "system" systemPrompt;
                              chat_message "user" userMessage]);
           ("temperature", JNum (7 # 10))]).

(** Lines 82-98: the request of the RapidAPI strategy. *)
Definition rapid_request (rapidApiKey systemPrompt userMessage : string) : Request :=
  mkRequest ("https://" ++ rapid_host ++ "/v1/chat/completions") "POST"
    [("Content-Type", "application/json");
     ("x-rapidapi-host", rapid_host);
     ("x-rapidapi-key", rapidApiKey)]
    (JObj [("messages", JArr [chat_message "system" systemPrompt;
                              chat_message "user" userMessage]);
           ("model", JStr "gpt-4o");
           ("max_tokens", JNum (1000 # 1));
           ("temperature", JNum (7 # 10))]).

(** Line 38. *)
Definition python_error_text (msg : string) : string :=
  "**Python Backend Error**: " ++ msg ++ "

*Check Vercel Environment Variables and Render Server logs.*".

(** Line 142. *)
Definition mock_text : string := "**[Mock Generated Content]**...".

(** Lines 139-143. *)
Definition mockResponse (model : string) : M JsValue :=
  async (
    sleep 1500 ;;
    return_ (JStr mock_text)).

(** Lines 115-136: the template literal of the final [return]. *)
Definition diagnostic (localUrl targetModel : string) (useLocal usePython keyFound : bool)
  : string :=
  "# Configuration Required

I cannot generate real output because no AI provider is configured or reachable.

**1. Local LLM (Recommended)**
- Ensure your local server (e.g., Ollama) is running at `" ++ localUrl ++ "`.
- Run: `ollama run " ++ targetModel ++ "`
- Restart this app: `npm run dev`

**2. RapidAPI**
- Add `RAPIDAPI_KEY` to your `.env.local` file.

**3. Python Backend (Hugging Face)**
- Ensure `HF_TOKEN` and `USE_PYTHON_BACKEND=true` are in `.env.local`.
- Ensure the python server is running: `python3 server.py`

**4. Debug Info**
- Local URL: " ++ localUrl ++ "
- Use Local: " ++ Js.show_bool useLocal ++ "
- Use Python: " ++ Js.show_bool usePython ++ "
- Rapid Key Found: " ++ Js.show_bool keyFound ++ "
".

(** Lines 16-41: "0. Python Backend Strategy". *)
Definition pythonStrategy (useLocal usePython : bool) (pythonUrl : string)
    (rapidApiKey : option string) (systemPrompt userMessage : string) : M unit :=
  when usePython (
    try_catch (
      console_log [AStr ("Attempting Python Server call to " ++ pythonUrl)] ;;
      response <- fetch Python (python_request pythonUrl systemPrompt userMessage) ;;
      when (negb (ok response))
        (throw (Error ("Python Server Error: " ++ statusText response))) ;;
      data <- await (body_json response) ;;
      text <- await (Js.get data "text") ;;
      return_ text)
    (fun error =>
      console_warn [AStr "Python Server failed:"; AErr error] ;;
      when (negb useLocal && negb (Js.truthy rapidApiKey))
        (return_ (JStr (python_error_text (message error)))))).

(** Lines 44-77: "1. Local LLM Strategy". *)
Definition localStrategy (useLocal usePython : bool) (localUrl targetModel : string)
    (rapidApiKey : option string) (systemPrompt userMessage : string) : M unit :=
  when useLocal (
    try_catch (
      console_log [AStr ("Attempting Local LLM call to " ++ localUrl
                         ++ " with model " ++ targetModel)] ;;
      response <- fetch Local (local_request localUrl targetModel systemPrompt userMessage) ;;
      when (negb (ok response))
        (throw (Error ("Local LLM Error: " ++ statusText response))) ;;
      data <- await (body_json response) ;;
      choices <- await (Js.get data "choices") ;;
      choice <- await (Js.get choices "0") ;;
      msg <- await (Js.get choice "message") ;;
      content <- await (Js.get msg "content") ;;
      return_ content)
    (fun error =>
      console_warn [AStr "Local LLM failed, falling back or erroring:"; AErr error] ;;
      when (negb (Js.truthy rapidApiKey) && negb usePython) (
        console_warn
          [AStr "No RapidAPI key found, returning mock response after local LLM failure."] ;;
        mocked <- mockResponse targetModel ;;
        return_ mocked))).

(** Lines 80-110: "2. RapidAPI Strategy".  Inside the [if], [rapidApiKey] is
    a non-empty string; [Js.to_string] is the string it is sent as. *)
Definition rapidStrategy (rapidApiKey : option string)
    (systemPrompt userMessage : string) : M unit :=
  when (Js.truthy rapidApiKey) (
    try_catch (
      response <- fetch Rapid
        (rapid_request (Js.to_string rapidApiKey) systemPrompt userMessage) ;;
      when (negb (ok response)) (
        err <- await (body_text response) ;;
        throw (Error ("RapidAPI Error: " ++ err))) ;;
      data <- await (body_json response) ;;
      choices <- await (Js.get data "choices") ;;
      choice <- await (Js.get choices "0") ;;
      msg <- await (Js.get choice "message") ;;
      content <- await (Js.get msg "content") ;;
      return_ content)
    (fun error =>
      console_error [AStr "RapidAPI Failed:"; AErr error])).

(** Lines 4-137. *)
Definition generateContent (model systemPrompt userMessage : string) : M JsValue :=
  async (
    LOCAL_LLM_URL <- getenv "LOCAL_LLM_URL" ;;
    let localUrl := Js.or_else LOCAL_LLM_URL "http://localhost:11434/v1/chat/completions" in
    USE_LOCAL_LLM <- getenv "USE_LOCAL_LLM" ;;
    let useLocal := Js.strict_eq USE_LOCAL_LLM "true" in
    USE_PYTHON_BACKEND <- getenv "USE_PYTHON_BACKEND" ;;
    let usePython := Js.strict_eq USE_PYTHON_BACKEND "true" in
    PYTHON_SERVER_URL <- getenv "PYTHON_SERVER_URL" ;;
    let pythonUrl := Js.or_else PYTHON_SERVER_URL "http://localhost:5001/generate" in
    rapidApiKey <- getenv "RAPIDAPI_KEY" ;;
    let targetModel := if useLocal || usePython then fixed_model else model in
    pythonStrategy useLocal usePython pythonUrl rapidApiKey systemPrompt userMessage ;;
    localStrategy useLocal usePython localUrl targetModel rapidApiKey
      systemPrompt userMessage ;;
    rapidStrategy rapidApiKey systemPrompt userMessage ;;
    console_warn [AStr "No valid LLM provider found or all providers failed."] ;;
    return_ (JStr (diagnostic localUrl targetModel useLocal usePython
                     (negb (negb (Js.truthy rapidApiKey)))))).

Arguments diagnostic : simpl never.
Arguments python_error_text : simpl never.
Arguments python_request : simpl never.
Arguments local_request : simpl never.
Arguments rapid_request : simpl never.

(** ** The configuration a call reads *)

(** Lines 6-13, as functions of the host, to state theorems with. *)
Module Config.
Definition localUrl (h : Host) : string :=
  Js.or_else (process_env h "LOCAL_LLM_URL") "http://localhost:11434/v1/chat/completions".
Definition useLocal (h : Host) : bool :=
  Js.strict_eq (process_env h "USE_LOCAL_LLM") "true".
Definition usePython (h : Host) : bool :=
  Js.strict_eq (process_env h "USE_PYTHON_BACKEND") "true".
Definition pythonUrl (h : Host) : string :=
  Js.or_else (process_env h "PYTHON_SERVER_URL") "http://localhost:5001/generate".
Definition rapidApiKey (h : Host) : option string := process_env h "RAPIDAPI_KEY".
Definition keyFound (h : Host) : bool := Js.truthy (rapidApiKey h).
Definition targetModel (h : Host) (model : string) : string :=
  if useLocal h || usePython h then fixed_model else model.

(** Whether the dispatcher is configured to try a provider. *)
Definition enabled (h : Host) (p : Provider) : bool :=
  match p with
  | Python => usePython h
  | Local => useLocal h
  | Rapid => keyFound h
  end.

(** The request the dispatcher makes to a provider. *)
Definition request_to (h : Host) (model systemPrompt userMessage : string)
    (p : Provider) : Request :=
  match p with
  | Python => python_request (pythonUrl h) systemPrompt userMessage
  | Local => local_request (localUrl h) (targetModel h model) systemPrompt userMessage
  | Rapid => rapid_request (Js.to_string (rapidApiKey h)) systemPrompt userMessage
  end.
End Config.

(** ** What a reply is worth to the dispatcher

    The definitions from here to the example hosts are not code of the
    program: they name what its [try] blocks compute, so that the theorems can
    speak of an attempt that succeeds or fails.  The lemmas on the strategies
    below prove that the program computes exactly these. *)

Definition and_then {A B} (r : JsError + A) (k : A -> JsError + B) : JsError + B :=
  match r with inl e => inl e | inr a => k a end.

(** [data.choices[0].message.content] *)
Definition chat_content (data : JsValue) : JsError + JsValue :=
  and_then (Js.get data "choices") (fun choices =>
  and_then (Js.get choices "0") (fun choice =>
  and_then (Js.get choice "message") (fun msg =>
  Js.get msg "content"))).

(** The value a [try] block returns for the outcome of its [fetch], or the
    error its [catch] receives: lines 28-33, 62-67 and 100-105. *)
Definition attempt (p : Provider) (o : FetchOutcome) : JsError + JsValue :=
  match o with
  | Rejected e => inl e
  | Resolved r =>
      if ok r then
        and_then (body_json r) (fun data =>
          match p with
          | Python => Js.get data "text"
          | Local | Rapid => chat_content data
          end)
      else
        match p with
        | Python => inl (Error ("Python Server Error: " ++ statusText r))
        | Local => inl (Error ("Local LLM Error: " ++ statusText r))
        | Rapid => and_then (body_text r) (fun err => inl (Error ("RapidAPI Error: " ++ err)))
        end
  end.

(** An exchange whose reply the dispatcher returns to its caller. *)
Definition succeeded (x : Exchange) : bool :=
  match attempt (site x) (outcome x) with inr _ => true | inl _ => false end.

(** [st'] is [st] after the exchanges [xs] and [ms] milliseconds of timers. *)
Definition advances (st st' : Effects) (xs : list Exchange) (ms : N) : Prop :=
  sent st' = sent st ++ xs /\ elapsed st' = (elapsed st + ms)%N.

(** The priority of the providers: Python before local before RapidAPI. *)
Definition priority (p : Provider) : nat :=
  match p with Python => 0 | Local => 1 | Rapid => 2 end.

Definition before (p q : Provider) : Prop := priority p < priority q.

(** The end of the Python strategy, given what its attempt was worth. *)
Definition python_end (useLocal : bool) (rapidApiKey : option string)
    (a : JsError + JsValue) : Completion unit :=
  match a with
  | inr text => Return text
  | inl error =>
      if negb useLocal && negb (Js.truthy rapidApiKey)
      then Return (JStr (python_error_text (message error)))
      else Normal tt
  end.

(** Whether a failed local attempt ends the call with the mock. *)
Definition mocks (usePython : bool) (rapidApiKey : option string) : bool :=
  negb (Js.truthy rapidApiKey) && negb usePython.

(** The end of the local strategy, given what its attempt was worth. *)
Definition local_end (usePython : bool) (rapidApiKey : option string)
    (a : JsError + JsValue) : Completion unit :=
  match a with
  | inr content => Return content
  | inl _ => if mocks usePython rapidApiKey then Return (JStr mock_text) else Normal tt
  end.

(** The milliseconds the local strategy waits. *)
Definition local_wait (usePython : bool) (rapidApiKey : option string)
    (a : JsError + JsValue) : N :=
  match a with
  | inr _ => 0
  | inl _ => if mocks usePython rapidApiKey then 1500 else 0
  end.

(** The end of the RapidAPI strategy, given what its attempt was worth. *)
Definition rapid_end (a : JsError + JsValue) : Completion unit :=
  match a with
  | inr content => Return content
  | inl _ => Normal tt
  end.

(** ** The fallback chain as an iteration over the providers *)

(** The value of a chain, or [text] when it has none. *)
Definition or_text (r : option JsValue) (text : string) : JsValue :=
  match r with Some v => v | None => JStr text end.

(** The wait of a chain that has no value, when that ends in the mock. *)
Definition wait_if (r : option JsValue) (mock : bool) : N :=
  match r with Some _ => 0 | None => if mock then 1500 else 0 end.

Section Chain.
Variable h : Host.
Variables model systemPrompt userMessage : string.

(** The exchange made with [p] after [hist]. *)
Definition exchange (hist : list Exchange) (p : Provider) : Exchange :=
  mkExchange p (Config.request_to h model systemPrompt userMessage p)
    (network h hist (Config.request_to h model systemPrompt userMessage p)).

(** Try the enabled providers of [ps] in turn until one succeeds: the
    exchanges made, and the value obtained if one succeeded. *)
Fixpoint chain (ps : list Provider) (hist : list Exchange)
  : list Exchange * option JsValue :=
  match ps with
  | [] => ([], None)
  | p :: rest =>
      if Config.enabled h p then
        let x := exchange hist p in
        match attempt p (outcome x) with
        | inr v => ([x], Some v)
        | inl _ =>
            let (xs, r) := chain rest (hist ++ [x]) in
            (x :: xs, r)
        end
      else chain rest hist
  end.

Definition providers : list Provider := [Python; Local; Rapid].

(** Only the Python backend is configured. *)
Definition python_only : bool :=
  Config.usePython h && negb (Config.useLocal h) && negb (Config.keyFound h).

(** Only the local LLM is configured. *)
Definition local_only : bool :=
  Config.useLocal h && negb (Config.keyFound h) && negb (Config.usePython h).

(** The template of lines 115-136, filled as the last [return] fills it. *)
Definition the_diagnostic : string :=
  diagnostic (Config.localUrl h) (Config.targetModel h model)
    (Config.useLocal h) (Config.usePython h) (Config.keyFound h).

(** What the call returns when no provider succeeded. *)
Definition fallback (hist : list Exchange) : string :=
  if python_only then
    match attempt Python (outcome (exchange hist Python)) with
    | inl error => python_error_text (message error)
    | inr _ => ""
    end
  else if local_only then mock_text
  else the_diagnostic.

(** What the call resolves with, after the exchanges [hist]. *)
Definition result (hist : list Exchange) : JsValue :=
  or_text (snd (chain providers hist)) (fallback hist).

(** The milliseconds the call waits. *)
Definition waited (hist : list Exchange) : N :=
  wait_if (snd (chain providers hist)) local_only.

(** The strategies from the RapidAPI one on (lines 80-136). *)
Definition from_rapid : M unit :=
  rapidStrategy (Config.rapidApiKey h) systemPrompt userMessage ;;
  console_warn [AStr "No valid LLM provider found or all providers failed."] ;;
  return_ (JStr (diagnostic (Config.localUrl h) (Config.targetModel h model)
                   (Config.useLocal h) (Config.usePython h) (Config.keyFound h))).

(** The strategies from the local one on (lines 44-136). *)
Definition from_local : M unit :=
  localStrategy (Config.useLocal h) (Config.usePython h) (Config.localUrl h)
    (Config.targetModel h model) (Config.rapidApiKey h) systemPrompt userMessage ;;
  from_rapid.

(** All the strategies (lines 16-136). *)
Definition from_python : M unit :=
  pythonStrategy (Config.useLocal h) (Config.usePython h) (Config.pythonUrl h)
    (Config.rapidApiKey h) systemPrompt userMessage ;;
  from_local.

End Chain.

Arguments exchange : simpl never.

(** ** What a caller and the network see of one call *)

(** How the promise of [generateContent] settles. *)
Definition settles (model systemPrompt userMessage : string) (h : Host) (st : Effects)
  : Completion JsValue :=
  fst (generateContent model systemPrompt userMessage h st).

(** The exchanges the call makes, oldest first. *)
Definition calls (model systemPrompt userMessage : string) (h : Host) (st : Effects)
  : list Exchange :=
  skipn (length (sent st)) (sent (snd (generateContent model systemPrompt userMessage h st))).

(** The milliseconds the call spends in timers. *)
Definition delay (model systemPrompt userMessage : string) (h : Host) (st : Effects) : N :=
  (elapsed (snd (generateContent model systemPrompt userMessage h st)) - elapsed st)%N.

(** ** Example hosts *)

Module Examples.

(** A process environment with exactly the variables [vars]. *)
Definition env_of (vars : list (string * string)) (var : string) : option string :=
  match find (fun kv => String.eqb (fst kv) var) vars with
  | Some kv => Some (snd kv)
  | None => None
  end.

(** A network whose answer depends on the request alone. *)
Definition host_of (vars : list (string * string)) (net : Request -> FetchOutcome) : Host :=
  mkHost (env_of vars) (fun _ req => net req).

Definition reply (code : Z) (reason text : string) (json : JsError + JsValue)
  : FetchOutcome :=
  Resolved (mkResponse code reason (inr text) json).

Definition quoted (s : string) : string :=
  let dq := String (ascii_of_nat 34) "" in (dq ++ s ++ dq)%string.

(** The text of the body [{"key": "value"}]. *)
Definition object_text (key value : string) : string :=
  ("{" ++ quoted key ++ ":" ++ quoted value ++ "}")%string.

Definition not_json : JsError + JsValue :=
  inl (mkError "SyntaxError" "Unexpected end of JSON input").

(** An OpenAI-style completion carrying [content], and its text. *)
Definition chat_body (content : string) : JsValue :=
  JObj [("choices",
         JArr [JObj [("index", JNum 0);
                     ("message", JObj [("role", JStr "assistant");
                                       ("content", JStr content)])]])].

Definition chat_text (content : string) : string :=
  ("{" ++ quoted "choices" ++ ":[{" ++ quoted "index" ++ ":0," ++ quoted "message" ++ ":{"
   ++ quoted "role" ++ ":" ++ quoted "assistant" ++ "," ++ quoted "content" ++ ":"
   ++ quoted content ++ "}}]}")%string.

Definition completion (content : string) : FetchOutcome :=
  reply 200 "OK" (chat_text content) (inr (chat_body content)).

Definition unreachable : FetchOutcome := Rejected (mkError "TypeError" "fetch failed").

(** Python backend alone; it answers 200 with the body [{}]. *)
Definition python_empty_object : Host :=
  host_of [("USE_PYTHON_BACKEND", "true")]
    (fun _ => reply 200 "OK" "{}" (inr (JObj []))).

(** Python backend alone; it answers 200 with [{"text": ""}]. *)
Definition python_empty_text : Host :=
  host_of [("USE_PYTHON_BACKEND", "true")]
    (fun _ => reply 200 "OK" (object_text "text" "") (inr (JObj [("text", JStr "")]))).

(** Python backend alone; it answers 200 with [{"text": "hello"}]. *)
Definition python_hello : Host :=
  host_of [("USE_PYTHON_BACKEND", "true")]
    (fun _ => reply 200 "OK" (object_text "text" "hello")
                (inr (JObj [("text", JStr "hello")]))).

(** Python backend alone; it answers 200 with the body [null]. *)
Definition python_null : Host :=
  host_of [("USE_PYTHON_BACKEND", "true")]
    (fun _ => reply 200 "OK" "null" (inr JNull)).

(** Python backend and a RapidAPI key; the backend answers 200 with the
    body [null], RapidAPI with a completion. *)
Definition python_null_with_key : Host :=
  host_of [("USE_PYTHON_BACKEND", "true"); ("RAPIDAPI_KEY", "k-123")]
    (fun req =>
       if String.eqb (url req) "http://localhost:5001/generate"
       then reply 200 "OK" "null" (inr JNull)
       else completion "from rapid").

(** Python backend alone, and unreachable. *)
Definition python_down : Host :=
  host_of [("USE_PYTHON_BACKEND", "true")] (fun _ => unreachable).

(** Local LLM alone; it answers with a completion. *)
Definition local_hello : Host :=
  host_of [("USE_LOCAL_LLM", "true")]
    (fun _ => completion "hi there").

(** Local LLM alone; it answers 503 with a body that is not JSON. *)
Definition local_down : Host :=
  host_of [("USE_LOCAL_LLM", "true");
           ("LOCAL_LLM_URL", "http://10.0.0.5:1234/v1/chat/completions")]
    (fun _ => reply 503 "Service Unavailable" "" not_json).

(** Nothing configured. *)
Definition unconfigured : Host := host_of [] (fun _ => unreachable).

(** Both self-hosted providers, no key, nothing reachable. *)
Definition self_hosted_down : Host :=
  host_of [("USE_LOCAL_LLM", "true"); ("USE_PYTHON_BACKEND", "true")]
    (fun _ => unreachable).

(** A RapidAPI key alone; RapidAPI answers 401. *)
Definition rapid_denied : Host :=
  host_of [("RAPIDAPI_KEY", "k-123")]
    (fun _ => reply 401 "Unauthorized" (object_text "message" "Invalid API key")
                (inr (JObj [("message", JStr "Invalid API key")]))).

(** A RapidAPI key alone; RapidAPI answers with a completion. *)
Definition rapid_hello : Host :=
  host_of [("RAPIDAPI_KEY", "k-123")] (fun _ => completion "from rapid").

(** Python backend alone; it answers 502. *)
Definition python_bad_gateway : Host :=
  host_of [("USE_PYTHON_BACKEND", "true")]
    (fun _ => reply 502 "Bad Gateway" "" not_json).

(** Local LLM alone, with the other variables set but empty, or set to
    something other than 'true'. *)
Definition local_with_blanks : Host :=
  host_of [("USE_LOCAL_LLM", "true"); ("LOCAL_LLM_URL", ""); ("RAPIDAPI_KEY", "");
           ("PYTHON_SERVER_URL", ""); ("USE_PYTHON_BACKEND", "")]
    (fun _ => completion "hi there").

End Examples.

(** ** Further notions, for the properties beyond the claims *)

(** [v.k1.k2...]: the keys read in turn. *)
Fixpoint read_path (v : JsValue) (keys : list string) : JsError + JsValue :=
  match keys with
  | [] => inr v
  | k :: rest => and_then (Js.get v k) (fun w => read_path w rest)
  end.

(** The environment variables of lines 6-10. *)
Definition variables_read : list string :=
  ["LOCAL_LLM_URL"; "USE_LOCAL_LLM"; "USE_PYTHON_BACKEND"; "PYTHON_SERVER_URL";
   "RAPIDAPI_KEY"].

(** Two settings of a variable that are the same value, or both unset or
    empty. *)
Definition same_setting (a b : option string) : Prop :=
  a = b \/ (Js.truthy a = false /\ Js.truthy b = false).

(** The console lines of a call, oldest first. *)
Definition logged (model systemPrompt userMessage : string) (h : Host) (st : Effects)
  : list (LogLevel * list LogArg) :=
  skipn (length (console st))
    (console (snd (generateContent model systemPrompt userMessage h st))).

(** The line a [catch] block writes for the error it caught (lines 35, 69
    and 107), if the attempt failed. *)
Definition failure_line (lvl : LogLevel) (label : string) (a : JsError + JsValue)
  : list (LogLevel * list LogArg) :=
  match a with
  | inl error => [(lvl, [AStr label; AErr error])]
  | inr _ => []
  end.

(** The console lines that go with one exchange: the announcement of lines
    18 and 46, and the report of its failure. *)
Definition lines_of (h : Host) (model : string) (x : Exchange)
  : list (LogLevel * list LogArg) :=
  match site x with
  | Python =>
      (LLog, [AStr ("Attempting Python Server call to " ++ Config.pythonUrl h)])
      :: failure_line LWarn "Python Server failed:" (attempt Python (outcome x))
  | Local =>
      (LLog, [AStr ("Attempting Local LLM call to " ++ Config.localUrl h
                    ++ " with model " ++ Config.targetModel h model)])
      :: failure_line LWarn "Local LLM failed, falling back or erroring:"
           (attempt Local (outcome x))
  | Rapid => failure_line LError "RapidAPI Failed:" (attempt Rapid (outcome x))
  end.

(** The warning of line 72. *)
Definition mock_notice : LogLevel * list LogArg :=
  (LWarn, [AStr "No RapidAPI key found, returning mock response after local LLM failure."]).

(** The warning of line 112. *)
Definition no_provider_notice : LogLevel * list LogArg :=
  (LWarn, [AStr "No valid LLM provider found or all providers failed."]).

(** The last console line of a call in which no provider succeeded. *)
Definition closing_lines (h : Host) (one_succeeded : bool)
  : list (LogLevel * list LogArg) :=
  if one_succeeded then []
  else if python_only h then []
  else if local_only h then [mock_notice]
  else [no_provider_notice].

(** ** Running the strategies *)

(** The constants of lines 6-13 are the ones of [Config]. *)
Lemma generateContent_eq model systemPrompt userMessage h :
  generateContent model systemPrompt userMessage h =
  async (
    pythonStrategy (Config.useLocal h) (Config.usePython h) (Config.pythonUrl h)
      (Config.rapidApiKey h) systemPrompt userMessage ;;
    localStrategy (Config.useLocal h) (Config.usePython h) (Config.localUrl h)
      (Config.targetModel h model) (Config.rapidApiKey h) systemPrompt userMessage ;;
    rapidStrategy (Config.rapidApiKey h) systemPrompt userMessage ;;
    console_warn [AStr "No valid LLM provider found or all providers failed."] ;;
    return_ (JStr (diagnostic (Config.localUrl h) (Config.targetModel h model)
                     (Config.useLocal h) (Config.usePython h) (Config.keyFound h)))) h.
Proof.
  unfold Config.keyFound. rewrite <- (negb_involutive (Js.truthy (Config.rapidApiKey h))).
  reflexivity.
Qed.

(** Case analysis on what a reply holds, as the [try] blocks read it. *)
Ltac split_run :=
  cbn;
  match goal with
  | |- context [if ok ?r then _ else _] => destruct (ok r)
  | |- context [if negb (ok ?r) then _ else _] => destruct (ok r)
  | |- context [match body_json ?r with inl _ => _ | inr _ => _ end] =>
      destruct (body_json r) as [? | ?]
  | |- context [match body_text ?r with inl _ => _ | inr _ => _ end] =>
      destruct (body_text r) as [? | ?]
  | |- context [match Js.get ?v ?k with inl _ => _ | inr _ => _ end] =>
      destruct (Js.get v k) as [? | ?]
  | |- context [if mocks ?p ?k then _ else _] => destruct (mocks p k)
  end.

Ltac close_run :=
  cbn; eexists; (split; [reflexivity | cbn; split; [reflexivity | lia]]).

(** Lines 16-41 when the flag is off: nothing happens. *)
Lemma pythonStrategy_off useLocal pythonUrl key sp um h st :
  pythonStrategy useLocal false pythonUrl key sp um h st = (Normal tt, st).
Proof. reflexivity. Qed.

(** Lines 16-41 when the flag is on: one exchange, and the strategy ends as
    [python_end] says for what [attempt] makes of the reply. *)
Lemma pythonStrategy_on useLocal pythonUrl key sp um h st :
  let req := python_request pythonUrl sp um in
  let o := network h (sent st) req in
  exists st',
    pythonStrategy useLocal true pythonUrl key sp um h st
      = (python_end useLocal key (attempt Python o), st')
    /\ advances st st' [mkExchange Python req o] 0.
Proof.
  intros req o.
  unfold pythonStrategy, try_catch, bind, fetch, console_log, console_warn,
    console_emit, when, await, attempt, python_end, and_then, advances, return_, throw, pure.
  cbn. fold req. fold o.
  destruct (negb useLocal && negb (Js.truthy key));
    destruct o as [e | r]; repeat split_run; close_run.
Qed.

(** Lines 44-77 when the flag is off. *)
Lemma localStrategy_off usePython localUrl targetModel key sp um h st :
  localStrategy false usePython localUrl targetModel key sp um h st = (Normal tt, st).
Proof. reflexivity. Qed.

(** Lines 44-77 when the flag is on: one exchange, then [local_end], after
    the wait of the mock if the strategy ends in it. *)
Lemma localStrategy_on usePython localUrl targetModel key sp um h st :
  let req := local_request localUrl targetModel sp um in
  let o := network h (sent st) req in
  exists st',
    localStrategy true usePython localUrl targetModel key sp um h st
      = (local_end usePython key (attempt Local o), st')
    /\ advances st st' [mkExchange Local req o] (local_wait usePython key (attempt Local o)).
Proof.
  intros req o.
  unfold localStrategy, mockResponse, async, sleep, try_catch, bind, fetch, console_log,
    console_warn, console_emit, when, await, attempt, chat_content, local_end, local_wait,
    and_then, advances, return_, throw, pure.
  fold (mocks usePython key). cbn. fold req. fold o.
  destruct o as [e | r]; repeat split_run; close_run.
Qed.

(** Lines 80-110 without a key. *)
Lemma rapidStrategy_off key sp um h st :
  Js.truthy key = false -> rapidStrategy key sp um h st = (Normal tt, st).
Proof. intros E. unfold rapidStrategy. now rewrite E. Qed.

(** Lines 80-110 with a key: one exchange, then [rapid_end]. *)
Lemma rapidStrategy_on key sp um h st :
  Js.truthy key = true ->
  let req := rapid_request (Js.to_string key) sp um in
  let o := network h (sent st) req in
  exists st',
    rapidStrategy key sp um h st = (rapid_end (attempt Rapid o), st')
    /\ advances st st' [mkExchange Rapid req o] 0.
Proof.
  intros E req o.
  unfold rapidStrategy, try_catch, bind, fetch, console_error, console_emit, when, await,
    attempt, chat_content, rapid_end, and_then, advances, return_, throw, pure.
  rewrite E. cbn. fold req. fold o.
  destruct o as [e | r]; repeat split_run; close_run.
Qed.

Lemma bind_normal {A B} (c : M A) (k : A -> M B) h st a st' :
  c h st = (Normal a, st') -> bind c k h st = k a h st'.
Proof. unfold bind. now intros ->. Qed.

Lemma bind_return {A B} (c : M A) (k : A -> M B) h st v st' :
  c h st = (Return v, st') -> bind c k h st = (Return v, st').
Proof. unfold bind. now intros ->. Qed.

(** ** The program runs the chain *)

Section ChainRun.
Variable h : Host.
Variables model systemPrompt userMessage : string.

Local Abbreviation exchange' := (exchange h model systemPrompt userMessage).
Local Abbreviation chain' := (chain h model systemPrompt userMessage).
Local Abbreviation result' := (result h model systemPrompt userMessage).
Local Abbreviation waited' := (waited h model systemPrompt userMessage).
Local Abbreviation from_rapid' := (from_rapid h model systemPrompt userMessage).
Local Abbreviation from_local' := (from_local h model systemPrompt userMessage).
Local Abbreviation from_python' := (from_python h model systemPrompt userMessage).
Local Abbreviation diag' := (the_diagnostic h model).

Lemma chain_cons p rest hist :
  chain' (p :: rest) hist =
    if Config.enabled h p then
      match attempt p (outcome (exchange' hist p)) with
      | inr v => ([exchange' hist p], Some v)
      | inl _ => let (xs, r) := chain' rest (hist ++ [exchange' hist p]) in
                 (exchange' hist p :: xs, r)
      end
    else chain' rest hist.
Proof. reflexivity. Qed.

Lemma from_rapid_run st :
  exists st',
    from_rapid' h st = (Return (or_text (snd (chain' [Rapid] (sent st))) diag'), st')
    /\ advances st st' (fst (chain' [Rapid] (sent st))) 0.
Proof.
  unfold from_rapid. fold (the_diagnostic h model). cbn [chain Config.enabled].
  pose proof (eq_refl : Config.keyFound h = Js.truthy (Config.rapidApiKey h)) as KF.
  destruct (Js.truthy (Config.rapidApiKey h)) eqn:EK; rewrite KF.
  - destruct (rapidStrategy_on _ systemPrompt userMessage h st EK) as (st1 & R & A).
    cbv zeta in R, A. unfold exchange. cbn [Config.request_to outcome].
    destruct (attempt Rapid _) as [e | v]; cbn [rapid_end] in R.
    + rewrite (bind_normal _ _ _ _ _ _ R).
      eexists. split; [reflexivity|]. destruct A as [S T]. split; cbn; [exact S | lia].
    + rewrite (bind_return _ _ _ _ _ _ R). exists st1. split; [reflexivity | exact A].
  - rewrite (bind_normal _ _ _ _ _ _ (rapidStrategy_off _ _ _ _ _ EK)).
    eexists. split; [reflexivity | ]. split; cbn; [now rewrite app_nil_r | lia].
Qed.

Lemma from_local_run st :
  let r := chain' [Local; Rapid] (sent st) in
  exists st',
    from_local' h st
      = (Return (or_text (snd r) (if local_only h then mock_text else diag')), st')
    /\ advances st st' (fst r) (wait_if (snd r) (local_only h)).
Proof.
  unfold from_local, local_only. rewrite chain_cons. cbn [Config.enabled].
  destruct (Config.useLocal h) eqn:EL; cbn [andb].
  - destruct (localStrategy_on (Config.usePython h) (Config.localUrl h)
                (Config.targetModel h model) (Config.rapidApiKey h)
                systemPrompt userMessage h st) as (st1 & R & S & T).
    cbv zeta in R, S, T.
    change (mkExchange Local _ _) with (exchange' (sent st) Local) in S.
    change (network h (sent st) _) with (outcome (exchange' (sent st) Local)) in R, T.
    destruct (attempt Local _) as [e | v]; cbn [local_end local_wait] in R, T.
    + unfold mocks in R, T. fold (Config.keyFound h) in R, T.
      destruct (negb (Config.keyFound h) && negb (Config.usePython h)) eqn:EM.
      * rewrite (bind_return _ _ _ _ _ _ R).
        apply andb_prop in EM. destruct EM as [EK _]. apply negb_true_iff in EK.
        rewrite chain_cons. cbn [Config.enabled chain]. rewrite EK. cbn.
        exists st1. split; [reflexivity | split; [exact S | exact T]].
      * rewrite (bind_normal _ _ _ _ _ _ R).
        destruct (from_rapid_run st1) as (st2 & R2 & S2 & T2).
        rewrite S in R2, S2.
        rewrite R2. destruct (chain' [Rapid] _) as [xs r]. cbn [fst snd] in *.
        exists st2. split; [reflexivity | split].
        -- rewrite S2. now rewrite <- app_assoc.
        -- rewrite T2, T. destruct r; cbn; lia.
    + rewrite (bind_return _ _ _ _ _ _ R).
      exists st1. split; [reflexivity | split; [exact S | exact T]].
  - rewrite (bind_normal _ _ _ _ _ _ (localStrategy_off _ _ _ _ _ _ _ _)).
    destruct (from_rapid_run st) as (st2 & R2 & A2).
    exists st2. split; [exact R2 | ].
    destruct A2 as [S2 T2]. split; [exact S2 | ].
    rewrite T2. destruct (snd (chain' [Rapid] (sent st))); reflexivity.
Qed.

Lemma from_python_run st :
  exists st',
    from_python' h st = (Return (result' (sent st)), st')
    /\ advances st st' (fst (chain' providers (sent st))) (waited' (sent st)).
Proof.
  unfold from_python, result, waited, fallback, python_only, providers.
  fold (the_diagnostic h model). rewrite chain_cons. cbn [Config.enabled].
  destruct (Config.usePython h) eqn:EP; cbn [andb].
  - destruct (pythonStrategy_on (Config.useLocal h) (Config.pythonUrl h)
                (Config.rapidApiKey h) systemPrompt userMessage h st) as (st1 & R & S & T).
    cbv zeta in R, S, T.
    change (mkExchange Python _ _) with (exchange' (sent st) Python) in S.
    change (network h (sent st) _) with (outcome (exchange' (sent st) Python)) in R.
    destruct (attempt Python _) as [e | v]; cbn [python_end] in R.
    + fold (Config.keyFound h) in R.
      assert (LO : local_only h = false).
      { unfold local_only. rewrite EP. now rewrite andb_false_r. }
      destruct (negb (Config.useLocal h) && negb (Config.keyFound h)) eqn:ET.
      * rewrite (bind_return _ _ _ _ _ _ R).
        apply andb_prop in ET. destruct ET as [EL EK].
        apply negb_true_iff in EL, EK.
        rewrite !chain_cons. cbn [Config.enabled chain]. rewrite EL, EK. cbn.
        exists st1. split; [reflexivity | split; [exact S | ]].
        rewrite T, LO. reflexivity.
      * rewrite (bind_normal _ _ _ _ _ _ R).
        destruct (from_local_run st1) as (st2 & R2 & S2 & T2).
        cbv zeta in R2, S2, T2. rewrite LO in *. rewrite S in R2, S2, T2.
        rewrite R2. destruct (chain' [Local; Rapid] _) as [xs r]. cbn [fst snd] in *.
        exists st2. split; [reflexivity | split].
        -- rewrite S2. now rewrite <- app_assoc.
        -- rewrite T2, T. destruct r; cbn; lia.
    + rewrite (bind_return _ _ _ _ _ _ R).
      exists st1. split; [reflexivity | split; [exact S | exact T]].
  - rewrite (bind_normal _ _ _ _ _ _ (pythonStrategy_off _ _ _ _ _ _ _)).
    destruct (from_local_run st) as (st2 & R2 & A2). cbv zeta in R2, A2.
    exists st2. split; [exact R2 | exact A2].
Qed.

(** [generateContent] is that iteration: it resolves, with [result], after
    the exchanges of [chain]. *)
Lemma generateContent_chain (st : Effects) :
  exists st',
    generateContent model systemPrompt userMessage h st = (Normal (result' (sent st)), st')
    /\ advances st st' (fst (chain' providers (sent st))) (waited' (sent st)).
Proof.
  rewrite generateContent_eq. fold from_rapid'. fold from_local'. fold from_python'.
  destruct (from_python_run st) as (st' & R & A).
  exists st'. split; [ | exact A]. unfold async. now rewrite R.
Qed.

End ChainRun.

Lemma skipn_length_app {A} (l xs : list A) : skipn (length l) (l ++ xs) = xs.
Proof. induction l as [| a l IH]; [reflexivity | exact IH]. Qed.

Lemma settles_result model sp um h st :
  settles model sp um h st = Normal (result h model sp um (sent st)).
Proof.
  unfold settles. destruct (generateContent_chain h model sp um st) as (st' & R & _).
  now rewrite R.
Qed.

Lemma calls_chain model sp um h st :
  calls model sp um h st = fst (chain h model sp um providers (sent st)).
Proof.
  unfold calls. destruct (generateContent_chain h model sp um st) as (st' & R & S & _).
  rewrite R. cbn [snd]. rewrite S. apply skipn_length_app.
Qed.

Lemma delay_waited model sp um h st :
  delay model sp um h st = waited h model sp um (sent st).
Proof.
  unfold delay. destruct (generateContent_chain h model sp um st) as (st' & R & _ & T).
  rewrite R. cbn [snd]. rewrite T. lia.
Qed.

(** ** Reading the flags *)

Lemma strict_eq_true x lit : x = Some lit -> Js.strict_eq x lit = true.
Proof. intros ->. apply String.eqb_refl. Qed.

Lemma strict_eq_false x lit : x <> Some lit -> Js.strict_eq x lit = false.
Proof.
  intros N. destruct x as [s |]; [cbn | reflexivity].
  destruct (String.eqb_spec s lit) as [-> | _]; [now elim N | reflexivity].
Qed.

(** A falsy key is an unset or an empty one. *)
Lemma truthy_false_iff x : Js.truthy x = false <-> x = None \/ x = Some "".
Proof.
  destruct x as [s |]; cbn.
  - destruct (String.eqb_spec s "") as [-> | N]; cbn; split; auto.
    + discriminate.
    + intros [E | E]; [discriminate | injection E as ->; now elim N].
  - split; auto.
Qed.

(** The ways the Python attempt fails: the network, the status, the body. *)
Lemma python_attempt_fails o :
  (exists e, attempt Python o = inl e) <->
  (exists e, o = Rejected e) \/
  (exists r, o = Resolved r /\
     (ok r = false \/ (exists e, body_json r = inl e)
      \/ body_json r = inr JNull \/ body_json r = inr JUndefined)).
Proof.
  split.
  - intros [e E]. destruct o as [e' | r]; [left; eauto | right].
    exists r. split; [reflexivity | ]. cbn in E.
    destruct (ok r); [ | now left]. right.
    destruct (body_json r) as [e' | data]; [left; eauto | right].
    destruct data; cbn in E; try discriminate; auto.
    destruct (Js.assoc _ _); discriminate.
  - intros [[e ->] | (r & -> & [E | [[e E] | [E | E]]])]; cbn.
    + eauto.
    + rewrite E. eauto.
    + rewrite E. destruct (ok r); cbn; eauto.
    + rewrite E. destruct (ok r); cbn; eauto.
    + rewrite E. destruct (ok r); cbn; eauto.
Qed.

(** ** Properties of the chain *)

Section ChainFacts.
Variable h : Host.
Variables model systemPrompt userMessage : string.

Local Abbreviation chain' := (chain h model systemPrompt userMessage).
Local Abbreviation exchange' := (exchange h model systemPrompt userMessage).

Lemma exchange_site hist p : site (exchange' hist p) = p.
Proof. reflexivity. Qed.

Lemma exchange_request hist p :
  request (exchange' hist p) = Config.request_to h model systemPrompt userMessage p.
Proof. reflexivity. Qed.

Lemma exchange_outcome hist p :
  outcome (exchange' hist p)
    = network h hist (Config.request_to h model systemPrompt userMessage p).
Proof. reflexivity. Qed.

(** Every exchange is with an enabled provider of the list, carries the
    request built for it, and has the answer the network gives after the
    exchanges before it. *)
Lemma chain_members ps : forall hist pre x post,
  fst (chain' ps hist) = pre ++ x :: post ->
  In (site x) ps /\ Config.enabled h (site x) = true
  /\ x = exchange' (hist ++ pre) (site x).
Proof.
  induction ps as [| p rest IH]; intros hist pre x post E.
  - cbn in E. now destruct pre.
  - rewrite chain_cons in E.
    destruct (Config.enabled h p) eqn:EN.
    + destruct (attempt p _) as [e | v].
      * destruct (chain' rest (hist ++ [exchange' hist p])) as [xs r] eqn:C.
        cbn [fst] in E. destruct pre as [| y pre]; cbn in E; injection E as <- E.
        -- rewrite app_nil_r. cbn. auto.
        -- destruct (IH (hist ++ [exchange' hist p]) pre x post) as (I & N & X).
           { now rewrite C. }
           rewrite <- app_assoc in X. cbn in X. cbn. auto.
      * cbn [fst] in E. destruct pre as [| y pre]; cbn in E.
        -- injection E as <- _. rewrite app_nil_r. cbn. auto.
        -- injection E as _ E. now destruct pre.
    + destruct (IH hist pre x post E) as (I & N & X). cbn. auto.
Qed.

Lemma chain_sites ps hist x :
  In x (fst (chain' ps hist)) -> In (site x) ps /\ Config.enabled h (site x) = true.
Proof.
  intros I. apply in_split in I. destruct I as (pre & post & E).
  destruct (chain_members ps hist pre x post E) as (I & N & _). auto.
Qed.

(** The exchanges keep the order of the list, without repeats. *)
Lemma chain_sorted ps : forall hist,
  StronglySorted before ps ->
  StronglySorted before (map site (fst (chain' ps hist))).
Proof.
  induction ps as [| p rest IH]; intros hist SS.
  - constructor.
  - inversion SS as [| p' rest' SR FA]; subst.
    rewrite chain_cons.
    destruct (Config.enabled h p).
    + destruct (attempt p _) as [e | v].
      * specialize (IH (hist ++ [exchange' hist p]) SR).
        pose proof (chain_sites rest (hist ++ [exchange' hist p])) as CS.
        destruct (chain' rest _) as [xs r]. cbn [fst] in *. cbn [map].
        constructor; [exact IH | ].
        rewrite Forall_forall in *. intros q Q. apply in_map_iff in Q.
        destruct Q as (x & <- & I). apply FA. now apply CS.
      * cbn. constructor; constructor.
    + now apply IH.
Qed.

(** Nothing follows an exchange that succeeded, and its value is the
    chain's. *)
Lemma chain_stop ps : forall hist pre x post,
  fst (chain' ps hist) = pre ++ x :: post ->
  succeeded x = true ->
  post = [] /\ snd (chain' ps hist) = match attempt (site x) (outcome x) with
                                      | inr v => Some v
                                      | inl _ => None
                                      end.
Proof.
  induction ps as [| p rest IH]; intros hist pre x post E SU.
  - cbn in E. now destruct pre.
  - rewrite chain_cons in *.
    destruct (Config.enabled h p).
    + destruct (attempt p (outcome (exchange' hist p))) as [e | v] eqn:A.
      * specialize (IH (hist ++ [exchange' hist p])).
        destruct (chain' rest (hist ++ [exchange' hist p])) as [xs r].
        cbn [fst snd] in *. destruct pre as [| y pre]; cbn in E; injection E as <- E.
        -- unfold succeeded in SU. rewrite exchange_site, A in SU. discriminate.
        -- now apply (IH pre x post).
      * cbn [fst snd] in *. destruct pre as [| y pre]; cbn in E.
        -- injection E as <- <-. rewrite exchange_site, A. auto.
        -- injection E as _ E. now destruct pre.
    + now apply (IH hist pre x post).
Qed.

(** When the chain has no value every exchange failed; when it has one,
    an exchange succeeded with it. *)
Lemma chain_value ps : forall hist,
  match snd (chain' ps hist) with
  | Some v => exists x, In x (fst (chain' ps hist))
                        /\ attempt (site x) (outcome x) = inr v
  | None => Forall (fun x => succeeded x = false) (fst (chain' ps hist))
  end.
Proof.
  induction ps as [| p rest IH]; intros hist.
  - constructor.
  - rewrite chain_cons.
    destruct (Config.enabled h p).
    + destruct (attempt p (outcome (exchange' hist p))) as [e | v] eqn:A.
      * specialize (IH (hist ++ [exchange' hist p])).
        destruct (chain' rest (hist ++ [exchange' hist p])) as [xs [v |]];
          cbn [fst snd] in *.
        -- destruct IH as (x & I & V). exists x. split; [now right | exact V].
        -- constructor; [ | exact IH]. unfold succeeded.
           now rewrite exchange_site, A.
      * cbn [fst snd]. exists (exchange' hist p). split; [now left | exact A].
    + apply IH.
Qed.

(** An enabled provider of the list is tried, unless one succeeded. *)
Lemma chain_complete ps : forall hist p,
  In p ps -> Config.enabled h p = true ->
  In p (map site (fst (chain' ps hist))) \/ snd (chain' ps hist) <> None.
Proof.
  induction ps as [| q rest IH]; intros hist p I EN; [destruct I | ].
  rewrite chain_cons.
  destruct (Config.enabled h q) eqn:EQ.
  - destruct (attempt q _) as [e | v].
    + destruct I as [-> | I].
      * destruct (chain' rest _) as [xs r]. left. now left.
      * specialize (IH (hist ++ [exchange' hist q]) p I EN).
        destruct (chain' rest _) as [xs r]. cbn [fst snd] in *.
        destruct IH as [IH | IH]; [left; now right | now right].
    + right. discriminate.
  - destruct I as [-> | I]; [congruence | now apply IH].
Qed.

End ChainFacts.

Lemma providers_sorted : StronglySorted before providers.
Proof.
  unfold providers, before.
  repeat constructor; cbn; lia.
Qed.

(** ** The texts the dispatcher returns *)

Lemma append_assoc (a b c : string) : ((a ++ b) ++ c = a ++ b ++ c)%string.
Proof. induction a as [| ch a IH]; cbn; [reflexivity | now rewrite IH]. Qed.

Lemma append_inj_l (s a b : string) : (s ++ a = s ++ b)%string -> a = b.
Proof. induction s as [| ch s IH]; cbn; [auto | intros [= E]; auto]. Qed.

Lemma list_ascii_of_append (a b : string) :
  list_ascii_of_string (a ++ b) = list_ascii_of_string a ++ list_ascii_of_string b.
Proof. induction a as [| ch a IH]; cbn; [reflexivity | now rewrite IH]. Qed.

Lemma append_inj_r (s a b : string) : (a ++ s = b ++ s)%string -> a = b.
Proof.
  intros E. apply (f_equal list_ascii_of_string) in E.
  rewrite !list_ascii_of_append in E. apply app_inv_tail in E.
  apply (f_equal string_of_list_ascii) in E.
  now rewrite !string_of_list_ascii_of_string in E.
Qed.

(** The template of lines 115-136 determines the model it was filled with. *)
Lemma diagnostic_inj_model localUrl m1 m2 useLocal usePython keyFound :
  diagnostic localUrl m1 useLocal usePython keyFound
  = diagnostic localUrl m2 useLocal usePython keyFound ->
  m1 = m2.
Proof.
  unfold diagnostic.
  match goal with
  | |- (?a ++ ?l ++ ?b ++ _ ++ ?r = _)%string -> _ =>
      intros E;
      apply (append_inj_l a) in E; apply (append_inj_l l) in E;
      apply (append_inj_l b) in E; apply (append_inj_r r) in E
  end.
  exact E.
Qed.

(** Line 121 of the template. *)
Lemma diagnostic_run_line localUrl targetModel useLocal usePython keyFound :
  exists before_ after_,
    diagnostic localUrl targetModel useLocal usePython keyFound
    = (before_ ++ "- Run: `ollama run " ++ targetModel ++ "`" ++ after_)%string.
Proof.
  unfold diagnostic.
  match goal with
  | |- exists x y, (?a ++ ?l ++ _ ++ ?m ++ _ ++ ?r = _)%string =>
      exists (a ++ l ++ "`.
")%string; exists ("
- Restart this app: `npm run dev`

**2. RapidAPI**
- Add `RAPIDAPI_KEY` to your `.env.local` file.

**3. Python Backend (Hugging Face)**
- Ensure `HF_TOKEN` and `USE_PYTHON_BACKEND=true` are in `.env.local`.
- Ensure the python server is running: `python3 server.py`

**4. Debug Info**
- Local URL: " ++ r)%string;
      rewrite !append_assoc; apply (f_equal (append a)); apply (f_equal (append l))
  end.
  reflexivity.
Qed.

Lemma diagnostic_not_python_error localUrl targetModel useLocal usePython keyFound :
  String.prefix "**Python Backend Error**"
    (diagnostic localUrl targetModel useLocal usePython keyFound) = false.
Proof. reflexivity. Qed.

Lemma diagnostic_not_mock localUrl targetModel useLocal usePython keyFound :
  diagnostic localUrl targetModel useLocal usePython keyFound <> mock_text.
Proof. unfold diagnostic, mock_text. cbn. discriminate. Qed.

Lemma diagnostic_not_empty localUrl targetModel useLocal usePython keyFound :
  diagnostic localUrl targetModel useLocal usePython keyFound <> "".
Proof. unfold diagnostic. cbn. discriminate. Qed.

Lemma python_error_text_prefix msg :
  String.prefix "**Python Backend Error**" (python_error_text msg) = true.
Proof. reflexivity. Qed.

Lemma python_error_text_not_empty msg : python_error_text msg <> "".
Proof. unfold python_error_text. cbn. discriminate. Qed.

Lemma mock_text_not_empty : mock_text <> "".
Proof. discriminate. Qed.

(** Lines 139-143: the mock resolves with its text after 1500 ms. *)
Lemma mockResponse_run model h st :
  mockResponse model h st
  = (Normal (JStr mock_text), mkEffects (sent st) (console st) (elapsed st + 1500)).
Proof. reflexivity. Qed.

(** ** The paths of one call *)

Section Paths.
Variable h : Host.
Variables model systemPrompt userMessage : string.
Variable st : Effects.

Local Abbreviation exchange' := (exchange h model systemPrompt userMessage).
Local Abbreviation settles' := (settles model systemPrompt userMessage h st).
Local Abbreviation calls' := (calls model systemPrompt userMessage h st).
Local Abbreviation delay' := (delay model systemPrompt userMessage h st).

Ltac observe :=
  rewrite ?settles_result, ?calls_chain, ?delay_waited;
  unfold result, waited, fallback, the_diagnostic, or_text, wait_if,
    python_only, local_only, providers.

Ltac step :=
  repeat first
    [ progress cbn [Config.enabled chain fst snd andb negb]
    | match goal with
      | E : ?f h = _ |- _ => rewrite !E
      | E : attempt _ _ = _ |- _ => rewrite !E
      end ].

(** The Python backend answers. *)
Lemma path_python_value v :
  Config.usePython h = true ->
  attempt Python (outcome (exchange' (sent st) Python)) = inr v ->
  settles' = Normal v /\ calls' = [exchange' (sent st) Python] /\ delay' = 0%N.
Proof. intros EP A. observe. step. auto. Qed.

(** Only the Python backend is configured, and it fails. *)
Lemma path_python_error e :
  Config.usePython h = true -> Config.useLocal h = false -> Config.keyFound h = false ->
  attempt Python (outcome (exchange' (sent st) Python)) = inl e ->
  settles' = Normal (JStr (python_error_text (message e)))
  /\ calls' = [exchange' (sent st) Python] /\ delay' = 0%N.
Proof. intros EP EL EK A. observe. step. auto. Qed.

(** Only the local LLM is configured, and it fails. *)
Lemma path_local_mock e :
  Config.usePython h = false -> Config.useLocal h = true -> Config.keyFound h = false ->
  attempt Local (outcome (exchange' (sent st) Local)) = inl e ->
  settles' = Normal (JStr mock_text)
  /\ calls' = [exchange' (sent st) Local] /\ delay' = 1500%N.
Proof. intros EP EL EK A. observe. step. auto. Qed.

(** Nothing is configured. *)
Lemma path_unconfigured :
  Config.usePython h = false -> Config.useLocal h = false -> Config.keyFound h = false ->
  settles' = Normal (JStr (diagnostic (Config.localUrl h) model false false false))
  /\ calls' = [] /\ delay' = 0%N.
Proof.
  intros EP EL EK. observe. step.
  unfold Config.targetModel. rewrite EP, EL. auto.
Qed.

(** Only RapidAPI is configured, and it fails. *)
Lemma path_rapid_fails e :
  Config.usePython h = false -> Config.useLocal h = false -> Config.keyFound h = true ->
  attempt Rapid (outcome (exchange' (sent st) Rapid)) = inl e ->
  settles' = Normal (JStr (diagnostic (Config.localUrl h) model false false true))
  /\ calls' = [exchange' (sent st) Rapid] /\ delay' = 0%N.
Proof.
  intros EP EL EK A. observe. step.
  unfold Config.targetModel. rewrite EP, EL. auto.
Qed.

(** Both self-hosted providers are configured, without a key, and fail. *)
Lemma path_python_local_fail e1 e2 :
  Config.usePython h = true -> Config.useLocal h = true -> Config.keyFound h = false ->
  attempt Python (outcome (exchange' (sent st) Python)) = inl e1 ->
  attempt Local
    (outcome (exchange' (sent st ++ [exchange' (sent st) Python]) Local)) = inl e2 ->
  settles' = Normal (JStr (diagnostic (Config.localUrl h) fixed_model true true false))
  /\ calls' = [exchange' (sent st) Python;
               exchange' (sent st ++ [exchange' (sent st) Python]) Local]
  /\ delay' = 0%N.
Proof.
  intros EP EL EK A1 A2. observe. step.
  unfold Config.targetModel. rewrite EP, EL. auto.
Qed.

(** The mock runs only for a configuration with the local LLM alone. *)
Lemma delay_positive :
  (0 < delay')%N ->
  Config.useLocal h = true /\ Config.usePython h = false /\ Config.keyFound h = false.
Proof.
  rewrite delay_waited. unfold waited, wait_if, local_only.
  destruct (snd _); [lia | ].
  destruct (Config.useLocal h), (Config.keyFound h), (Config.usePython h); cbn; auto; lia.
Qed.

End Paths.

(** ** The claims *)

Lemma fallback_not_empty h model sp um hist :
  snd (chain h model sp um providers hist) = None ->
  fallback h model sp um hist <> "".
Proof.
  intros N. unfold fallback.
  destruct (python_only h) eqn:PO.
  - unfold python_only in PO. apply andb_prop in PO. destruct PO as [PO _].
    apply andb_prop in PO. destruct PO as [EP _].
    unfold providers in N. rewrite chain_cons in N. cbn [Config.enabled] in N.
    rewrite EP in N.
    destruct (attempt Python _) as [e | v]; [apply python_error_text_not_empty | discriminate].
  - destruct (local_only h); [apply mock_text_not_empty | apply diagnostic_not_empty].
Qed.

(** C1, as stated, fails: with the Python backend alone, answering 200 with
    the body [{}], the promise resolves with [undefined], which is not a
    string. *)
Lemma C1_counterexample_undefined :
  settles "gpt-4o" "Be brief." "Hello" Examples.python_empty_object no_effects
    = Normal JUndefined
  /\ (forall s, JUndefined <> JStr s).
Proof. split; [reflexivity | discriminate]. Qed.

(** C1, amended: for every configuration and every outcome of the HTTP calls,
    [generateContent] resolves and never throws.  The value is what a
    successful exchange was worth (the field of the reply, as it is), or, when
    every exchange failed or none was made, a non-empty string. *)
Theorem C1_resolves_never_throws model sp um h st :
  exists v,
    settles model sp um h st = Normal v
    /\ ((exists x, In x (calls model sp um h st)
                   /\ attempt (site x) (outcome x) = inr v)
        \/ (Forall (fun x => succeeded x = false) (calls model sp um h st)
            /\ exists s, v = JStr s /\ s <> "")).
Proof.
  rewrite settles_result, calls_chain. unfold result.
  pose proof (chain_value h model sp um providers (sent st)) as V.
  pose proof (fallback_not_empty h model sp um (sent st)) as F.
  destruct (snd (chain h model sp um providers (sent st))) as [v |].
  - exists v. split; [reflexivity | now left].
  - eexists. split; [reflexivity | right]. split; [exact V | eauto].
Qed.

(** C2, as stated, fails: with the Python backend and a RapidAPI key
    configured, a 200 reply from the backend whose JSON body is [null] makes
    the read of [data.text] throw; the call goes on to RapidAPI and returns
    its completion. *)
Lemma C2_counterexample_null_body :
  process_env Examples.python_null_with_key "USE_PYTHON_BACKEND" = Some "true"
  /\ (exists r,
        network Examples.python_null_with_key []
          (python_request (Config.pythonUrl Examples.python_null_with_key) "Be brief." "Hello")
          = Resolved r
        /\ ok r = true /\ body_json r = inr JNull)
  /\ settles "gpt-4o" "Be brief." "Hello" Examples.python_null_with_key no_effects
       = Normal (JStr "from rapid")
  /\ map site (calls "gpt-4o" "Be brief." "Hello" Examples.python_null_with_key no_effects)
       = [Python; Rapid].
Proof.
  split; [reflexivity | split; [ | split; reflexivity]].
  eexists. split; [reflexivity | split; reflexivity].
Qed.

(** C2, amended: if USE_PYTHON_BACKEND is 'true' and the POST to the python
    URL is answered 2xx with a JSON body other than [null] ([undefined] is
    not JSON), [generateContent] returns exactly the [text] field of the body,
    and the exchange with the Python backend is the only one made. *)
Theorem C2_python_success model sp um h st r data :
  process_env h "USE_PYTHON_BACKEND" = Some "true" ->
  network h (sent st) (python_request (Config.pythonUrl h) sp um) = Resolved r ->
  ok r = true ->
  body_json r = inr data ->
  Js.nullish data = false ->
  exists text,
    Js.get data "text" = inr text
    /\ settles model sp um h st = Normal text
    /\ calls model sp um h st
       = [mkExchange Python (python_request (Config.pythonUrl h) sp um) (Resolved r)].
Proof.
  intros EP N OK J NN.
  assert (G : exists text, Js.get data "text" = inr text).
  { destruct data; try discriminate; cbn; eauto. destruct (Js.assoc _ _); eauto. }
  destruct G as [text G]. exists text. split; [exact G | ].
  destruct (path_python_value h model sp um st text) as (S & C & _).
  - now apply strict_eq_true.
  - rewrite exchange_outcome. cbn [Config.request_to]. rewrite N. cbn.
    rewrite OK, J. exact G.
  - split; [exact S | ]. rewrite C. unfold exchange. cbn [Config.request_to].
    now rewrite N.
Qed.

(** C2 at [Examples.python_hello]. *)
Lemma C2_python_success_witness :
  settles "gpt-4o" "Be brief." "Hello" Examples.python_hello no_effects
    = Normal (JStr "hello")
  /\ calls "gpt-4o" "Be brief." "Hello" Examples.python_hello no_effects
     = [mkExchange Python
          (python_request "http://localhost:5001/generate" "Be brief." "Hello")
          (Examples.reply 200 "OK" (Examples.object_text "text" "hello")
             (inr (JObj [("text", JStr "hello")])))].
Proof.
  destruct (C2_python_success "gpt-4o" "Be brief." "Hello" Examples.python_hello no_effects
              (mkResponse 200 "OK" (inr (Examples.object_text "text" "hello"))
                 (inr (JObj [("text", JStr "hello")])))
              (JObj [("text", JStr "hello")])
              eq_refl eq_refl eq_refl eq_refl eq_refl)
    as (text & field & returned & exchanged).
  injection field as <-. split; [exact returned | exact exchanged].
Defined.

(** C3: if USE_LOCAL_LLM is 'true', every request the call sends to the local
    LLM goes to the local URL with the fixed model name in the [model] field
    of its body, whatever the caller's [model]; and if that exchange succeeds
    (a 2xx reply whose JSON body has [choices[0].message.content]), the call
    returns exactly that content. *)
Theorem C3_local_success model sp um h st x :
  process_env h "USE_LOCAL_LLM" = Some "true" ->
  In x (calls model sp um h st) ->
  site x = Local ->
  (url (request x) = Config.localUrl h
   /\ Js.get (body (request x)) "model" = inr (JStr fixed_model))
  /\ (forall r data content,
        outcome x = Resolved r -> ok r = true -> body_json r = inr data ->
        chat_content data = inr content ->
        settles model sp um h st = Normal content).
Proof.
  intros EL I SX. apply strict_eq_true in EL. fold (Config.useLocal h) in EL.
  split.
  - rewrite calls_chain in I. apply in_split in I. destruct I as (pre & post & E).
    destruct (chain_members h model sp um _ _ _ _ _ E) as (_ & _ & X).
    rewrite X, SX. unfold exchange. cbn [request Config.request_to].
    unfold Config.targetModel. rewrite EL. split; reflexivity.
  - intros r data content O OK J CC.
    assert (A : attempt (site x) (outcome x) = inr content).
    { rewrite SX, O. cbn. now rewrite OK, J. }
    rewrite settles_result. unfold result.
    rewrite calls_chain in I. apply in_split in I. destruct I as (pre & post & E).
    destruct (chain_stop h model sp um _ _ _ _ _ E) as (_ & V).
    + unfold succeeded. now rewrite A.
    + rewrite V, A. reflexivity.
Qed.

(** C3 at [Examples.local_hello]. *)
Lemma C3_local_success_witness :
  (url (local_request "http://localhost:11434/v1/chat/completions"
          "meta-llama/Llama-4-Scout-17B-16E-Instruct" "Be brief." "Hello")
     = Config.localUrl Examples.local_hello
   /\ Js.get (body (local_request "http://localhost:11434/v1/chat/completions"
                      "meta-llama/Llama-4-Scout-17B-16E-Instruct" "Be brief." "Hello"))
        "model" = inr (JStr fixed_model))
  /\ settles "gpt-4o" "Be brief." "Hello" Examples.local_hello no_effects
     = Normal (JStr "hi there").
Proof.
  destruct (C3_local_success "gpt-4o" "Be brief." "Hello" Examples.local_hello no_effects
              (mkExchange Local
                 (local_request "http://localhost:11434/v1/chat/completions"
                    "meta-llama/Llama-4-Scout-17B-16E-Instruct" "Be brief." "Hello")
                 (Examples.completion "hi there")))
    as [sent_as returned].
  - reflexivity.
  - left. reflexivity.
  - reflexivity.
  - split; [exact sent_as | ].
    apply (returned (mkResponse 200 "OK" (inr (Examples.chat_text "hi there"))
                       (inr (Examples.chat_body "hi there")))
             (Examples.chat_body "hi there") (JStr "hi there")); reflexivity.
Defined.

(** C4: if USE_PYTHON_BACKEND is 'true', the python call fails, USE_LOCAL_LLM
    is not 'true' and no RAPIDAPI_KEY is present, [generateContent] returns a
    string that starts with "**Python Backend Error**" (followed by the
    message of the error), having made the Python exchange and no other, and
    without waiting. *)
Theorem C4_python_only_failure model sp um h st e :
  process_env h "USE_PYTHON_BACKEND" = Some "true" ->
  process_env h "USE_LOCAL_LLM" <> Some "true" ->
  Js.truthy (process_env h "RAPIDAPI_KEY") = false ->
  attempt Python (network h (sent st) (python_request (Config.pythonUrl h) sp um)) = inl e ->
  settles model sp um h st = Normal (JStr (python_error_text (message e)))
  /\ String.prefix "**Python Backend Error**" (python_error_text (message e)) = true
  /\ calls model sp um h st
     = [mkExchange Python (python_request (Config.pythonUrl h) sp um)
          (network h (sent st) (python_request (Config.pythonUrl h) sp um))]
  /\ delay model sp um h st = 0%N.
Proof.
  intros EP EL EK A.
  destruct (path_python_error h model sp um st e) as (S & C & D).
  - now apply strict_eq_true.
  - now apply strict_eq_false.
  - exact EK.
  - exact A.
  - split; [exact S | split; [apply python_error_text_prefix | split; [exact C | exact D]]].
Qed.

(** C4 at [Examples.python_down]. *)
Lemma C4_python_only_failure_witness :
  settles "gpt-4o" "Be brief." "Hello" Examples.python_down no_effects
    = Normal (JStr (python_error_text "fetch failed"))
  /\ String.prefix "**Python Backend Error**" (python_error_text "fetch failed") = true
  /\ calls "gpt-4o" "Be brief." "Hello" Examples.python_down no_effects
     = [mkExchange Python (python_request "http://localhost:5001/generate" "Be brief." "Hello")
          Examples.unreachable]
  /\ delay "gpt-4o" "Be brief." "Hello" Examples.python_down no_effects = 0%N.
Proof.
  apply (C4_python_only_failure "gpt-4o" "Be brief." "Hello" Examples.python_down no_effects
           (mkError "TypeError" "fetch failed")).
  - reflexivity.
  - discriminate.
  - reflexivity.
  - reflexivity.
Defined.

(** C5: if USE_LOCAL_LLM is 'true', the local LLM call fails, no RAPIDAPI_KEY
    is present and USE_PYTHON_BACKEND is not 'true', [generateContent]
    returns the placeholder text of [mockResponse], after the 1500 ms that
    [mockResponse] waits, having made the local exchange and no other. *)
Theorem C5_local_only_failure_mock model sp um h st e :
  process_env h "USE_LOCAL_LLM" = Some "true" ->
  attempt Local
    (network h (sent st)
       (local_request (Config.localUrl h) (Config.targetModel h model) sp um)) = inl e ->
  Js.truthy (process_env h "RAPIDAPI_KEY") = false ->
  process_env h "USE_PYTHON_BACKEND" <> Some "true" ->
  settles model sp um h st = Normal (JStr mock_text)
  /\ fst (mockResponse (Config.targetModel h model) h st) = Normal (JStr mock_text)
  /\ delay model sp um h st = 1500%N
  /\ calls model sp um h st
     = [mkExchange Local
          (local_request (Config.localUrl h) (Config.targetModel h model) sp um)
          (network h (sent st)
             (local_request (Config.localUrl h) (Config.targetModel h model) sp um))].
Proof.
  intros EL A EK EP.
  destruct (path_local_mock h model sp um st e) as (S & C & D).
  - now apply strict_eq_false.
  - now apply strict_eq_true.
  - exact EK.
  - exact A.
  - repeat split; [exact S | exact D | exact C].
Qed.

(** C5 at [Examples.local_down]. *)
Lemma C5_local_only_failure_mock_witness :
  settles "gpt-4o" "Be brief." "Hello" Examples.local_down no_effects
    = Normal (JStr "**[Mock Generated Content]**...")
  /\ fst (mockResponse (Config.targetModel Examples.local_down "gpt-4o")
            Examples.local_down no_effects)
     = Normal (JStr "**[Mock Generated Content]**...")
  /\ delay "gpt-4o" "Be brief." "Hello" Examples.local_down no_effects = 1500%N
  /\ calls "gpt-4o" "Be brief." "Hello" Examples.local_down no_effects
     = [mkExchange Local
          (local_request "http://10.0.0.5:1234/v1/chat/completions"
             "meta-llama/Llama-4-Scout-17B-16E-Instruct" "Be brief." "Hello")
          (Examples.reply 503 "Service Unavailable" "" Examples.not_json)].
Proof.
  apply (C5_local_only_failure_mock "gpt-4o" "Be brief." "Hello" Examples.local_down
           no_effects (Error "Local LLM Error: Service Unavailable")).
  - reflexivity.
  - reflexivity.
  - reflexivity.
  - discriminate.
Defined.

(** C6: if USE_PYTHON_BACKEND is not 'true', USE_LOCAL_LLM is not 'true' and
    no RAPIDAPI_KEY is present, [generateContent] makes no exchange and
    returns the diagnostic template filled with the current [localUrl],
    [useLocal], [usePython] and [!!rapidApiKey]: the text below, where the
    local URL is the value of LOCAL_LLM_URL or its default and the three
    flags read "false". *)
Theorem C6_unconfigured_diagnostic model sp um h st :
  process_env h "USE_PYTHON_BACKEND" <> Some "true" ->
  process_env h "USE_LOCAL_LLM" <> Some "true" ->
  Js.truthy (process_env h "RAPIDAPI_KEY") = false ->
  settles model sp um h st
    = Normal (JStr ("# Configuration Required

I cannot generate real output because no AI provider is configured or reachable.

**1. Local LLM (Recommended)**
- Ensure your local server (e.g., Ollama) is running at `" ++ Config.localUrl h ++ "`.
- Run: `ollama run " ++ model ++ "`
- Restart this app: `npm run dev`

**2. RapidAPI**
- Add `RAPIDAPI_KEY` to your `.env.local` file.

**3. Python Backend (Hugging Face)**
- Ensure `HF_TOKEN` and `USE_PYTHON_BACKEND=true` are in `.env.local`.
- Ensure the python server is running: `python3 server.py`

**4. Debug Info**
- Local URL: " ++ Config.localUrl h ++ "
- Use Local: false
- Use Python: false
- Rapid Key Found: false
"))
  /\ Config.localUrl h
     = Js.or_else (process_env h "LOCAL_LLM_URL") "http://localhost:11434/v1/chat/completions"
  /\ settles model sp um h st
     = Normal (JStr (diagnostic (Config.localUrl h) (Config.targetModel h model)
                       (Config.useLocal h) (Config.usePython h)
                       (negb (negb (Js.truthy (Config.rapidApiKey h))))))
  /\ (Config.useLocal h, Config.usePython h, Js.truthy (Config.rapidApiKey h))
     = (false, false, false)
  /\ calls model sp um h st = []
  /\ delay model sp um h st = 0%N.
Proof.
  intros EP EL EK. apply strict_eq_false in EP, EL.
  fold (Config.usePython h) in EP. fold (Config.useLocal h) in EL.
  destruct (path_unconfigured h model sp um st EP EL EK) as (S & C & D).
  unfold Config.targetModel, Config.rapidApiKey. rewrite EP, EL, EK. cbn [orb negb].
  split; [rewrite S; unfold diagnostic, Js.show_bool; reflexivity | ].
  split; [reflexivity | ].
  repeat split; [exact S | exact C | exact D].
Qed.

(** C6 at [Examples.unconfigured]. *)
Lemma C6_unconfigured_diagnostic_witness :
  settles "gpt-4o" "Be brief." "Hello" Examples.unconfigured no_effects
    = Normal (JStr "# Configuration Required

I cannot generate real output because no AI provider is configured or reachable.

**1. Local LLM (Recommended)**
- Ensure your local server (e.g., Ollama) is running at `http://localhost:11434/v1/chat/completions`.
- Run: `ollama run gpt-4o`
- Restart this app: `npm run dev`

**2. RapidAPI**
- Add `RAPIDAPI_KEY` to your `.env.local` file.

**3. Python Backend (Hugging Face)**
- Ensure `HF_TOKEN` and `USE_PYTHON_BACKEND=true` are in `.env.local`.
- Ensure the python server is running: `python3 server.py`

**4. Debug Info**
- Local URL: http://localhost:11434/v1/chat/completions
- Use Local: false
- Use Python: false
- Rapid Key Found: false
")
  /\ calls "gpt-4o" "Be brief." "Hello" Examples.unconfigured no_effects = []
  /\ delay "gpt-4o" "Be brief." "Hello" Examples.unconfigured no_effects = 0%N.
Proof.
  destruct (C6_unconfigured_diagnostic "gpt-4o" "Be brief." "Hello" Examples.unconfigured
              no_effects)
    as (returned & _ & _ & _ & none_made & no_wait).
  - discriminate.
  - discriminate.
  - reflexivity.
  - split; [exact returned | split; [exact none_made | exact no_wait]].
Defined.

(** C7: in every invocation the exchanges are with enabled providers, in the
    order Python backend, local LLM, RapidAPI, each provider at most once;
    each is the one request built for its provider, answered by the network
    after the exchanges before it; nothing follows an exchange that succeeds,
    whose value the call returns; and every enabled provider is tried unless
    one succeeded. *)
Theorem C7_fixed_order_once_until_success model sp um h st :
  StronglySorted before (map site (calls model sp um h st))
  /\ (forall pre x post,
        calls model sp um h st = pre ++ x :: post ->
        Config.enabled h (site x) = true
        /\ request x = Config.request_to h model sp um (site x)
        /\ outcome x = network h (sent st ++ pre) (request x))
  /\ (forall pre x post,
        calls model sp um h st = pre ++ x :: post ->
        succeeded x = true ->
        post = []
        /\ exists v, attempt (site x) (outcome x) = inr v
                     /\ settles model sp um h st = Normal v)
  /\ (forall p,
        Config.enabled h p = true ->
        In p (map site (calls model sp um h st))
        \/ Exists (fun x => succeeded x = true) (calls model sp um h st)).
Proof.
  rewrite settles_result, calls_chain. unfold result.
  split; [ | split; [ | split]].
  - apply chain_sorted, providers_sorted.
  - intros pre x post E.
    destruct (chain_members h model sp um _ _ _ _ _ E) as (_ & EN & X).
    split; [exact EN | ]. remember (site x) as p eqn:P. rewrite X.
    split; reflexivity.
  - intros pre x post E SU.
    destruct (chain_stop h model sp um _ _ _ _ _ E SU) as (-> & V).
    split; [reflexivity | ]. rewrite V. unfold succeeded in SU.
    destruct (attempt (site x) (outcome x)) as [e | v]; [discriminate | eauto].
  - intros p EN.
    destruct (chain_complete h model sp um providers (sent st) p) as [I | N].
    + unfold providers. destruct p; cbn; auto.
    + exact EN.
    + now left.
    + right. pose proof (chain_value h model sp um providers (sent st)) as V.
      destruct (snd (chain h model sp um providers (sent st))) as [v |]; [ | now elim N].
      destruct V as (x & I & A). apply Exists_exists. exists x. split; [exact I | ].
      unfold succeeded. now rewrite A.
Qed.

(** C8, as stated, fails: with the Python backend alone, a 200 reply whose
    JSON body is [null] has no [text] field, yet the call does not resolve
    with [undefined]: the read of [data.text] throws and the call returns
    the "Python Backend Error" string. *)
Lemma C8_counterexample_null_body :
  (exists r,
     network Examples.python_null []
       (python_request (Config.pythonUrl Examples.python_null) "Be brief." "Hello")
       = Resolved r
     /\ ok r = true /\ body_json r = inr JNull)
  /\ settles "gpt-4o" "Be brief." "Hello" Examples.python_null no_effects
     = Normal (JStr (python_error_text "Cannot read properties of null (reading 'text')"))
  /\ settles "gpt-4o" "Be brief." "Hello" Examples.python_null no_effects
     <> Normal JUndefined.
Proof.
  split; [ | split; [reflexivity | discriminate]].
  eexists. split; [reflexivity | split; reflexivity].
Qed.

(** C8, amended: on a 2xx python-backend reply whose JSON body is not [null]
    ([undefined] is not JSON), [generateContent] returns the [text] field of
    the body without any validation: for an object with no [text] property
    the resolved value is [undefined] (not a string), and for one whose
    [text] is the empty string the result is the empty string. *)
Theorem C8_python_text_unvalidated model sp um h st r data :
  process_env h "USE_PYTHON_BACKEND" = Some "true" ->
  network h (sent st) (python_request (Config.pythonUrl h) sp um) = Resolved r ->
  ok r = true ->
  body_json r = inr data ->
  Js.nullish data = false ->
  (exists text, Js.get data "text" = inr text /\ settles model sp um h st = Normal text)
  /\ (forall props, data = JObj props -> Js.assoc "text" props = None ->
        settles model sp um h st = Normal JUndefined)
  /\ (forall props, data = JObj props -> Js.assoc "text" props = Some (JStr "") ->
        settles model sp um h st = Normal (JStr "")).
Proof.
  intros EP N OK J NN.
  assert (R : forall text, Js.get data "text" = inr text ->
                           settles model sp um h st = Normal text).
  { intros text G.
    apply (path_python_value h model sp um st text).
    - now apply strict_eq_true.
    - rewrite exchange_outcome. cbn [Config.request_to]. rewrite N. cbn.
      rewrite OK, J. exact G. }
  split; [ | split].
  - destruct data; try discriminate; cbn in *; eauto.
    destruct (Js.assoc _ _); eauto.
  - intros props -> A. apply R. cbn. now rewrite A.
  - intros props -> A. apply R. cbn. now rewrite A.
Qed.

(** C8 at [Examples.python_empty_object] and [Examples.python_empty_text]. *)
Lemma C8_python_text_unvalidated_witness :
  settles "gpt-4o" "Be brief." "Hello" Examples.python_empty_object no_effects
    = Normal JUndefined
  /\ settles "gpt-4o" "Be brief." "Hello" Examples.python_empty_text no_effects
     = Normal (JStr "").
Proof.
  split.
  - apply (proj1 (proj2 (C8_python_text_unvalidated "gpt-4o" "Be brief." "Hello"
                           Examples.python_empty_object no_effects
                           (mkResponse 200 "OK" (inr "{}") (inr (JObj []))) (JObj [])
                           eq_refl eq_refl eq_refl eq_refl eq_refl))
             [] eq_refl eq_refl).
  - apply (proj2 (proj2 (C8_python_text_unvalidated "gpt-4o" "Be brief." "Hello"
                           Examples.python_empty_text no_effects
                           (mkResponse 200 "OK" (inr (Examples.object_text "text" ""))
                              (inr (JObj [("text", JStr "")])))
                           (JObj [("text", JStr "")])
                           eq_refl eq_refl eq_refl eq_refl eq_refl))
             [("text", JStr "")] eq_refl eq_refl).
Defined.

(** C9: if USE_LOCAL_LLM and USE_PYTHON_BACKEND are both 'true', both calls
    fail and no RAPIDAPI_KEY is present, [generateContent] returns the
    configuration diagnostic (the text below: the template with the local
    URL, the fixed model name and the flags true, true, false), which is
    neither the mock placeholder nor a "**Python Backend Error**" string.
    And in any call, the mock (the only wait) runs only when the python flag
    is unset and no credential exists. *)
Theorem C9_self_hosted_failures_diagnostic model sp um h st :
  (forall e1 e2,
     process_env h "USE_LOCAL_LLM" = Some "true" ->
     process_env h "USE_PYTHON_BACKEND" = Some "true" ->
     Js.truthy (process_env h "RAPIDAPI_KEY") = false ->
     attempt Python
       (network h (sent st) (python_request (Config.pythonUrl h) sp um)) = inl e1 ->
     attempt Local
       (network h
          (sent st ++
           [mkExchange Python (python_request (Config.pythonUrl h) sp um)
              (network h (sent st) (python_request (Config.pythonUrl h) sp um))])
          (local_request (Config.localUrl h) fixed_model sp um)) = inl e2 ->
     settles model sp um h st
       = Normal (JStr ("# Configuration Required

I cannot generate real output because no AI provider is configured or reachable.

**1. Local LLM (Recommended)**
- Ensure your local server (e.g., Ollama) is running at `" ++ Config.localUrl h ++ "`.
- Run: `ollama run meta-llama/Llama-4-Scout-17B-16E-Instruct`
- Restart this app: `npm run dev`

**2. RapidAPI**
- Add `RAPIDAPI_KEY` to your `.env.local` file.

**3. Python Backend (Hugging Face)**
- Ensure `HF_TOKEN` and `USE_PYTHON_BACKEND=true` are in `.env.local`.
- Ensure the python server is running: `python3 server.py`

**4. Debug Info**
- Local URL: " ++ Config.localUrl h ++ "
- Use Local: true
- Use Python: true
- Rapid Key Found: false
"))
     /\ settles model sp um h st
        = Normal (JStr (diagnostic (Config.localUrl h) fixed_model true true false))
     /\ settles model sp um h st <> Normal (JStr "**[Mock Generated Content]**...")
     /\ settles model sp um h st <> Normal (JStr mock_text)
     /\ String.prefix "**Python Backend Error**"
          (diagnostic (Config.localUrl h) fixed_model true true false) = false
     /\ map site (calls model sp um h st) = [Python; Local]
     /\ delay model sp um h st = 0%N)
  /\ ((0 < delay model sp um h st)%N ->
      process_env h "USE_PYTHON_BACKEND" <> Some "true"
      /\ Js.truthy (process_env h "RAPIDAPI_KEY") = false).
Proof.
  split.
  - intros e1 e2 EL EP EK A1 A2.
    apply strict_eq_true in EL, EP.
    fold (Config.useLocal h) in EL. fold (Config.usePython h) in EP.
    destruct (path_python_local_fail h model sp um st e1 e2 EP EL EK) as (S & C & D).
    + exact A1.
    + unfold exchange at 1. cbn [Config.request_to outcome].
      unfold Config.targetModel. rewrite EL. exact A2.
    + rewrite S, C, D.
      split; [unfold diagnostic, Js.show_bool, fixed_model; reflexivity | ].
      split; [reflexivity | split; [ | split; [ | split; [ | split; reflexivity]]]].
      * unfold diagnostic. cbn. discriminate.
      * intros E.
        apply (diagnostic_not_mock (Config.localUrl h) fixed_model true true false).
        congruence.
      * apply diagnostic_not_python_error.
  - intros P. apply delay_positive in P. destruct P as (_ & EP & EK).
    split; [ | exact EK].
    intros E. apply strict_eq_true in E. unfold Config.usePython in EP. congruence.
Qed.

(** C9 at [Examples.self_hosted_down]. *)
Lemma C9_self_hosted_failures_diagnostic_witness :
  settles "gpt-4o" "Be brief." "Hello" Examples.self_hosted_down no_effects
    = Normal (JStr "# Configuration Required

I cannot generate real output because no AI provider is configured or reachable.

**1. Local LLM (Recommended)**
- Ensure your local server (e.g., Ollama) is running at `http://localhost:11434/v1/chat/completions`.
- Run: `ollama run meta-llama/Llama-4-Scout-17B-16E-Instruct`
- Restart this app: `npm run dev`

**2. RapidAPI**
- Add `RAPIDAPI_KEY` to your `.env.local` file.

**3. Python Backend (Hugging Face)**
- Ensure `HF_TOKEN` and `USE_PYTHON_BACKEND=true` are in `.env.local`.
- Ensure the python server is running: `python3 server.py`

**4. Debug Info**
- Local URL: http://localhost:11434/v1/chat/completions
- Use Local: true
- Use Python: true
- Rapid Key Found: false
")
  /\ settles "gpt-4o" "Be brief." "Hello" Examples.self_hosted_down no_effects
     <> Normal (JStr "**[Mock Generated Content]**...")
  /\ map site (calls "gpt-4o" "Be brief." "Hello" Examples.self_hosted_down no_effects)
     = [Python; Local]
  /\ delay "gpt-4o" "Be brief." "Hello" Examples.self_hosted_down no_effects = 0%N.
Proof.
  destruct (proj1 (C9_self_hosted_failures_diagnostic "gpt-4o" "Be brief." "Hello"
                     Examples.self_hosted_down no_effects)
              (mkError "TypeError" "fetch failed") (mkError "TypeError" "fetch failed"))
    as (returned & _ & not_mock & _ & _ & sites & no_wait).
  - reflexivity.
  - reflexivity.
  - reflexivity.
  - reflexivity.
  - reflexivity.
  - split; [exact returned | split; [exact not_mock | split; [exact sites | exact no_wait]]].
Defined.

(** C10: the diagnostic carries [targetModel] in its "ollama run" line; when
    neither USE_LOCAL_LLM nor USE_PYTHON_BACKEND is 'true', [targetModel] is
    the caller's [model], so the diagnostic returned when nothing is
    configured, or when only RapidAPI is and it fails, differs for different
    [model] arguments. *)
Theorem C10_diagnostic_varies_with_model m1 m2 sp um h st :
  process_env h "USE_LOCAL_LLM" <> Some "true" ->
  process_env h "USE_PYTHON_BACKEND" <> Some "true" ->
  (Js.truthy (process_env h "RAPIDAPI_KEY") = false
   \/ exists e,
        attempt Rapid
          (network h (sent st)
             (rapid_request (Js.to_string (process_env h "RAPIDAPI_KEY")) sp um)) = inl e) ->
  Config.targetModel h m1 = m1
  /\ settles m1 sp um h st
     = Normal (JStr (diagnostic (Config.localUrl h) m1 false false (Config.keyFound h)))
  /\ (exists before_ after_,
        diagnostic (Config.localUrl h) m1 false false (Config.keyFound h)
        = (before_ ++ "- Run: `ollama run " ++ m1 ++ "`" ++ after_)%string)
  /\ (m1 <> m2 -> settles m1 sp um h st <> settles m2 sp um h st).
Proof.
  intros EL EP K. apply strict_eq_false in EL, EP.
  fold (Config.useLocal h) in EL. fold (Config.usePython h) in EP.
  assert (S : forall m, settles m sp um h st
                = Normal (JStr (diagnostic (Config.localUrl h) m false false
                                  (Config.keyFound h)))).
  { intros m. destruct (Config.keyFound h) eqn:EK.
    - destruct K as [K | [e A]]; [unfold Config.keyFound, Config.rapidApiKey in EK; congruence | ].
      now apply (path_rapid_fails h m sp um st e).
    - now apply (path_unconfigured h m sp um st). }
  split; [ | split; [ | split]].
  - unfold Config.targetModel. now rewrite EL, EP.
  - apply S.
  - apply diagnostic_run_line.
  - intros N. rewrite !S. intros E. apply N.
    apply (diagnostic_inj_model (Config.localUrl h) m1 m2 false false (Config.keyFound h)).
    congruence.
Qed.

(** C10 at [Examples.rapid_denied]. *)
Lemma C10_diagnostic_varies_with_model_witness :
  settles "gpt-4o" "Be brief." "Hello" Examples.rapid_denied no_effects
    = Normal (JStr (diagnostic "http://localhost:11434/v1/chat/completions" "gpt-4o"
                      false false true))
  /\ settles "gpt-4o" "Be brief." "Hello" Examples.rapid_denied no_effects
     <> settles "llama3" "Be brief." "Hello" Examples.rapid_denied no_effects.
Proof.
  destruct (C10_diagnostic_varies_with_model "gpt-4o" "llama3" "Be brief." "Hello"
              Examples.rapid_denied no_effects)
    as (_ & returned & _ & differs).
  - discriminate.
  - discriminate.
  - right. eexists. reflexivity.
  - split; [exact returned | apply differs; discriminate].
Defined.

(** ** Further properties of the dispatcher *)

(** When every exchange failed the chain has no value. *)
Lemma chain_failed_none h model sp um ps hist :
  Forall (fun x => succeeded x = false) (fst (chain h model sp um ps hist)) ->
  snd (chain h model sp um ps hist) = None.
Proof.
  intros F. pose proof (chain_value h model sp um ps hist) as V.
  destruct (snd (chain h model sp um ps hist)) as [v |]; [ | reflexivity].
  destruct V as (x & I & A). rewrite Forall_forall in F. specialize (F x I).
  unfold succeeded in F. rewrite A in F. discriminate.
Qed.

(** A chain without a value tried every enabled provider. *)
Lemma chain_none_sites h model sp um ps : forall hist,
  snd (chain h model sp um ps hist) = None ->
  map site (fst (chain h model sp um ps hist)) = filter (Config.enabled h) ps.
Proof.
  induction ps as [| p rest IH]; intros hist N; [reflexivity | ].
  rewrite chain_cons in *. cbn [filter].
  destruct (Config.enabled h p).
  - destruct (attempt p _) as [e | v]; [ | discriminate].
    specialize (IH (hist ++ [exchange h model sp um hist p])).
    destruct (chain h model sp um rest _) as [xs r]. cbn [fst snd map] in *.
    now rewrite IH.
  - now apply IH.
Qed.

(** Two runs of the chain agree when the same providers are enabled, the
    enabled ones get the same requests, and the network answers alike. *)
Lemma chain_ext h1 m1 h2 m2 sp um ps :
  (forall p, Config.enabled h1 p = Config.enabled h2 p) ->
  (forall p, Config.enabled h1 p = true ->
             Config.request_to h1 m1 sp um p = Config.request_to h2 m2 sp um p) ->
  forall hist1 hist2,
    (forall pre req, network h1 (hist1 ++ pre) req = network h2 (hist2 ++ pre) req) ->
    chain h1 m1 sp um ps hist1 = chain h2 m2 sp um ps hist2.
Proof.
  intros EN RQ. induction ps as [| p rest IH]; intros hist1 hist2 NW; [reflexivity | ].
  rewrite !chain_cons. rewrite <- (EN p).
  destruct (Config.enabled h1 p) eqn:E; [ | now apply IH].
  assert (X : exchange h1 m1 sp um hist1 p = exchange h2 m2 sp um hist2 p).
  { unfold exchange. rewrite <- (RQ p E).
    specialize (NW [] (Config.request_to h1 m1 sp um p)).
    rewrite !app_nil_r in NW. now rewrite NW. }
  rewrite X. destruct (attempt p _) as [e | v]; [ | reflexivity].
  rewrite (IH (hist1 ++ [exchange h2 m2 sp um hist2 p])
              (hist2 ++ [exchange h2 m2 sp um hist2 p])); [reflexivity | ].
  intros pre req. rewrite <- !app_assoc. apply NW.
Qed.

(** ... and then the calls agree in what they send and how long they wait,
    and in what they return if they fill the diagnostic alike. *)
Lemma run_ext h1 m1 h2 m2 sp um st1 st2 :
  (forall p, Config.enabled h1 p = Config.enabled h2 p) ->
  (forall p, Config.enabled h1 p = true ->
             Config.request_to h1 m1 sp um p = Config.request_to h2 m2 sp um p) ->
  (forall pre req,
     network h1 (sent st1 ++ pre) req = network h2 (sent st2 ++ pre) req) ->
  calls m1 sp um h1 st1 = calls m2 sp um h2 st2
  /\ delay m1 sp um h1 st1 = delay m2 sp um h2 st2
  /\ (the_diagnostic h1 m1 = the_diagnostic h2 m2 ->
      settles m1 sp um h1 st1 = settles m2 sp um h2 st2).
Proof.
  intros EN RQ NW.
  pose proof (chain_ext h1 m1 h2 m2 sp um providers EN RQ _ _ NW) as C.
  assert (LO : local_only h1 = local_only h2).
  { unfold local_only. change (Config.useLocal ?h) with (Config.enabled h Local).
    change (Config.usePython ?h) with (Config.enabled h Python).
    change (Config.keyFound ?h) with (Config.enabled h Rapid).
    now rewrite !EN. }
  assert (PO : python_only h1 = python_only h2).
  { unfold python_only. change (Config.useLocal ?h) with (Config.enabled h Local).
    change (Config.usePython ?h) with (Config.enabled h Python).
    change (Config.keyFound ?h) with (Config.enabled h Rapid).
    now rewrite !EN. }
  rewrite !calls_chain, !delay_waited, !settles_result.
  unfold waited, result. rewrite C, LO. split; [reflexivity | split; [reflexivity | ]].
  intros D. f_equal. f_equal. unfold fallback. rewrite <- PO, <- LO, D.
  destruct (python_only h1) eqn:P; [ | reflexivity].
  assert (EP : Config.enabled h1 Python = true).
  { unfold python_only in P. apply andb_prop in P. destruct P as [P _].
    apply andb_prop in P. now destruct P. }
  unfold exchange. rewrite <- (RQ Python EP).
  specialize (NW [] (Config.request_to h1 m1 sp um Python)).
  rewrite !app_nil_r in NW. now rewrite NW.
Qed.

Lemma truthy_some x : Js.truthy x = true -> exists k, x = Some k /\ k <> "".
Proof.
  destruct x as [k |]; cbn; [ | discriminate].
  destruct (String.eqb_spec k "") as [-> | N]; [discriminate | eauto].
Qed.

(** X1: every request the call sends to RapidAPI goes to the fixed endpoint
    and asks for the model "gpt-4o" with max_tokens 1000 and temperature 0.7,
    whatever the caller's [model]; and if that exchange succeeds (a 2xx reply
    whose JSON body has [choices[0].message.content]), the call returns
    exactly that content, without waiting. *)
Theorem X1_rapid_success model sp um h st x :
  In x (calls model sp um h st) ->
  site x = Rapid ->
  (url (request x)
     = "https://cheapest-gpt-4-turbo-gpt-4-vision-chatgpt-openai-ai-api.p.rapidapi.com/v1/chat/completions"
   /\ Js.get (body (request x)) "model" = inr (JStr "gpt-4o")
   /\ Js.get (body (request x)) "max_tokens" = inr (JNum 1000)
   /\ Js.get (body (request x)) "temperature" = inr (JNum (7 # 10)))
  /\ (forall r data content,
        outcome x = Resolved r -> ok r = true -> body_json r = inr data ->
        chat_content data = inr content ->
        settles model sp um h st = Normal content /\ delay model sp um h st = 0%N).
Proof.
  intros I SX. rewrite calls_chain in I. apply in_split in I.
  destruct I as (pre & post & E). split.
  - destruct (chain_members h model sp um _ _ _ _ _ E) as (_ & _ & X).
    rewrite X, SX. unfold exchange. cbn [request Config.request_to].
    repeat split; reflexivity.
  - intros r data content O OK J CC.
    assert (A : attempt (site x) (outcome x) = inr content).
    { rewrite SX, O. cbn. now rewrite OK, J. }
    rewrite settles_result, delay_waited. unfold result, waited.
    destruct (chain_stop h model sp um _ _ _ _ _ E) as (_ & V).
    + unfold succeeded. now rewrite A.
    + rewrite V, A. split; reflexivity.
Qed.

(** X1 at [Examples.rapid_hello]. *)
Lemma X1_rapid_success_witness :
  Js.get (body (rapid_request "k-123" "Be brief." "Hello")) "model" = inr (JStr "gpt-4o")
  /\ settles "llama3" "Be brief." "Hello" Examples.rapid_hello no_effects
     = Normal (JStr "from rapid")
  /\ delay "llama3" "Be brief." "Hello" Examples.rapid_hello no_effects = 0%N.
Proof.
  destruct (X1_rapid_success "llama3" "Be brief." "Hello" Examples.rapid_hello no_effects
              (mkExchange Rapid (rapid_request "k-123" "Be brief." "Hello")
                 (Examples.completion "from rapid")))
    as [(_ & asked & _) returned].
  - left. reflexivity.
  - reflexivity.
  - split; [exact asked | ].
    apply (returned (mkResponse 200 "OK" (inr (Examples.chat_text "from rapid"))
                       (inr (Examples.chat_body "from rapid")))
             (Examples.chat_body "from rapid") (JStr "from rapid")); reflexivity.
Defined.

(** X2: the caller's [model] never reaches a provider: two calls that differ
    only in [model] make the same exchanges and wait as long; and when
    USE_LOCAL_LLM or USE_PYTHON_BACKEND is 'true' they also return the
    same. *)
Theorem X2_model_never_sent m1 m2 sp um h st :
  calls m1 sp um h st = calls m2 sp um h st
  /\ delay m1 sp um h st = delay m2 sp um h st
  /\ (process_env h "USE_LOCAL_LLM" = Some "true"
      \/ process_env h "USE_PYTHON_BACKEND" = Some "true" ->
      settles m1 sp um h st = settles m2 sp um h st).
Proof.
  destruct (run_ext h m1 h m2 sp um st st) as (C & D & S).
  - reflexivity.
  - intros [] E; cbn [Config.request_to Config.enabled] in *; [reflexivity | | reflexivity].
    unfold Config.targetModel. now rewrite E.
  - reflexivity.
  - split; [exact C | split; [exact D | ]].
    intros F. apply S. unfold the_diagnostic, Config.targetModel.
    destruct F as [F | F]; apply strict_eq_true in F.
    + fold (Config.useLocal h) in F. now rewrite F.
    + fold (Config.usePython h) in F. rewrite F. now rewrite orb_true_r.
Qed.

(** X3: every request is a POST.  The requests to the Python backend and to
    the local LLM carry the Content-Type header and no other; a request to
    RapidAPI is made only with a non-empty RAPIDAPI_KEY, goes to the fixed
    endpoint, and carries the key in its x-rapidapi-key header. *)
Theorem X3_key_only_to_rapidapi model sp um h st x :
  In x (calls model sp um h st) ->
  method (request x) = "POST"
  /\ match site x with
     | Rapid =>
         exists k,
           process_env h "RAPIDAPI_KEY" = Some k /\ k <> ""
           /\ url (request x) = ("https://" ++ rapid_host ++ "/v1/chat/completions")%string
           /\ headers (request x)
              = [("Content-Type", "application/json");
                 ("x-rapidapi-host", rapid_host);
                 ("x-rapidapi-key", k)]
     | Python | Local => headers (request x) = [("Content-Type", "application/json")]
     end.
Proof.
  intros I. rewrite calls_chain in I. apply in_split in I.
  destruct I as (pre & post & E).
  destruct (chain_members h model sp um _ _ _ _ _ E) as (_ & EN & X).
  rewrite X. unfold exchange. cbn [request site].
  destruct (site x); cbn [Config.request_to Config.enabled] in *.
  - split; reflexivity.
  - split; reflexivity.
  - split; [reflexivity | ].
    destruct (truthy_some _ EN) as (k & K & NE). exists k.
    unfold Config.rapidApiKey in *. rewrite K. cbn. auto.
Qed.

(** X3 at [Examples.rapid_hello]. *)
Lemma X3_key_only_to_rapidapi_witness :
  exists k,
    process_env Examples.rapid_hello "RAPIDAPI_KEY" = Some k /\ k <> ""
    /\ url (rapid_request "k-123" "Be brief." "Hello")
       = ("https://" ++ rapid_host ++ "/v1/chat/completions")%string
    /\ headers (rapid_request "k-123" "Be brief." "Hello")
       = [("Content-Type", "application/json");
          ("x-rapidapi-host", rapid_host);
          ("x-rapidapi-key", k)].
Proof.
  apply (proj2 (X3_key_only_to_rapidapi "gpt-4o" "Be brief." "Hello" Examples.rapid_hello
                  no_effects
                  (mkExchange Rapid (rapid_request "k-123" "Be brief." "Hello")
                     (Examples.completion "from rapid"))
                  (or_introl eq_refl))).
Defined.

(** X4: when no exchange succeeds, every enabled provider has been tried,
    in order, and the text returned depends on the configuration alone:
    "**Python Backend Error**: ", the message of the error caught and the
    hint that follows it, when the Python backend is the only provider
    configured; the mock text, after 1500 ms, when the local LLM is the only
    one; the diagnostic, at once, in every other case. *)
Theorem X4_failure_text model sp um h st :
  Forall (fun x => succeeded x = false) (calls model sp um h st) ->
  map site (calls model sp um h st) = filter (Config.enabled h) [Python; Local; Rapid]
  /\ delay model sp um h st = (if local_only h then 1500 else 0)%N
  /\ exists text,
       settles model sp um h st = Normal (JStr text)
       /\ (if Config.usePython h && negb (Config.useLocal h) && negb (Config.keyFound h)
           then
             exists e,
               attempt Python
                 (network h (sent st) (python_request (Config.pythonUrl h) sp um)) = inl e
               /\ text = ("**Python Backend Error**: " ++ message e ++ "

*Check Vercel Environment Variables and Render Server logs.*")%string
           else if Config.useLocal h && negb (Config.keyFound h) && negb (Config.usePython h)
           then text = "**[Mock Generated Content]**..."
           else text = ("# Configuration Required

I cannot generate real output because no AI provider is configured or reachable.

**1. Local LLM (Recommended)**
- Ensure your local server (e.g., Ollama) is running at `" ++ Config.localUrl h ++ "`.
- Run: `ollama run " ++ Config.targetModel h model ++ "`
- Restart this app: `npm run dev`

**2. RapidAPI**
- Add `RAPIDAPI_KEY` to your `.env.local` file.

**3. Python Backend (Hugging Face)**
- Ensure `HF_TOKEN` and `USE_PYTHON_BACKEND=true` are in `.env.local`.
- Ensure the python server is running: `python3 server.py`

**4. Debug Info**
- Local URL: " ++ Config.localUrl h ++ "
- Use Local: " ++ (if Config.useLocal h then "true" else "false") ++ "
- Use Python: " ++ (if Config.usePython h then "true" else "false") ++ "
- Rapid Key Found: " ++ (if Config.keyFound h then "true" else "false") ++ "
")%string).
Proof.
  intros F. rewrite calls_chain in *.
  pose proof (chain_failed_none _ _ _ _ _ _ F) as N.
  split; [now apply chain_none_sites | split].
  - rewrite delay_waited. unfold waited. now rewrite N.
  - exists (fallback h model sp um (sent st)).
    split; [rewrite settles_result; unfold result; now rewrite N | ].
    unfold fallback. fold (python_only h). fold (local_only h).
    destruct (python_only h) eqn:PO; [ | destruct (local_only h); reflexivity].
    unfold python_only in PO. apply andb_prop in PO. destruct PO as [PO _].
    apply andb_prop in PO. destruct PO as [EP _].
    unfold providers in N. rewrite chain_cons in N. cbn [Config.enabled] in N.
    rewrite EP in N.
    change (outcome (exchange h model sp um (sent st) Python))
      with (network h (sent st) (python_request (Config.pythonUrl h) sp um)) in *.
    destruct (attempt Python _) as [e | v]; [ | discriminate].
    exists e. split; reflexivity.
Qed.

(** X4 at [Examples.rapid_denied] and at [Examples.python_down]. *)
Lemma X4_failure_text_witness :
  (map site (calls "gpt-4o" "Be brief." "Hello" Examples.rapid_denied no_effects) = [Rapid]
   /\ delay "gpt-4o" "Be brief." "Hello" Examples.rapid_denied no_effects = 0%N
   /\ settles "gpt-4o" "Be brief." "Hello" Examples.rapid_denied no_effects
      = Normal (JStr "# Configuration Required

I cannot generate real output because no AI provider is configured or reachable.

**1. Local LLM (Recommended)**
- Ensure your local server (e.g., Ollama) is running at `http://localhost:11434/v1/chat/completions`.
- Run: `ollama run gpt-4o`
- Restart this app: `npm run dev`

**2. RapidAPI**
- Add `RAPIDAPI_KEY` to your `.env.local` file.

**3. Python Backend (Hugging Face)**
- Ensure `HF_TOKEN` and `USE_PYTHON_BACKEND=true` are in `.env.local`.
- Ensure the python server is running: `python3 server.py`

**4. Debug Info**
- Local URL: http://localhost:11434/v1/chat/completions
- Use Local: false
- Use Python: false
- Rapid Key Found: true
"))
  /\ settles "gpt-4o" "Be brief." "Hello" Examples.python_down no_effects
     = Normal (JStr "**Python Backend Error**: fetch failed

*Check Vercel Environment Variables and Render Server logs.*").
Proof.
  split.
  - destruct (X4_failure_text "gpt-4o" "Be brief." "Hello" Examples.rapid_denied no_effects)
      as (sites & no_wait & text & returned & is_diagnostic).
    + repeat constructor.
    + cbn in is_diagnostic. rewrite is_diagnostic in returned.
      split; [exact sites | split; [exact no_wait | exact returned]].
  - destruct (X4_failure_text "gpt-4o" "Be brief." "Hello" Examples.python_down no_effects)
      as (_ & _ & text & returned & e & failed & is_error).
    + repeat constructor.
    + injection failed as <-. rewrite is_error in returned. exact returned.
Defined.

Lemma same_setting_truthy a b : same_setting a b -> Js.truthy a = Js.truthy b.
Proof. intros [-> | [A B]]; [reflexivity | now rewrite A, B]. Qed.

Lemma same_setting_or_else a b dflt :
  same_setting a b -> Js.or_else a dflt = Js.or_else b dflt.
Proof.
  intros [-> | [A B]]; [reflexivity | ].
  apply truthy_false_iff in A, B.
  destruct A as [-> | ->], B as [-> | ->]; reflexivity.
Qed.

Lemma same_setting_strict_eq a b :
  same_setting a b -> Js.strict_eq a "true" = Js.strict_eq b "true".
Proof.
  intros [-> | [A B]]; [reflexivity | ].
  apply truthy_false_iff in A, B.
  destruct A as [-> | ->], B as [-> | ->]; reflexivity.
Qed.

Lemma same_setting_truthy_eq a b : same_setting a b -> Js.truthy a = true -> a = b.
Proof. intros [-> | [A B]] T; [reflexivity | congruence]. Qed.

(** X5: the call reads five environment variables and nothing else of the
    environment, and it treats a variable set to the empty string as unset:
    on two hosts whose networks answer alike and whose five variables are
    each equal, or each unset or empty, a call returns the same, makes the
    same exchanges and waits as long. *)
Theorem X5_empty_is_unset model sp um h1 h2 st :
  (forall var, In var variables_read ->
               same_setting (process_env h1 var) (process_env h2 var)) ->
  (forall hist req, network h1 hist req = network h2 hist req) ->
  settles model sp um h1 st = settles model sp um h2 st
  /\ calls model sp um h1 st = calls model sp um h2 st
  /\ delay model sp um h1 st = delay model sp um h2 st.
Proof.
  intros V NW.
  assert (LU : Config.localUrl h1 = Config.localUrl h2).
  { apply same_setting_or_else, V. cbn. auto. }
  assert (UL : Config.useLocal h1 = Config.useLocal h2).
  { apply same_setting_strict_eq, V. cbn. auto. }
  assert (UP : Config.usePython h1 = Config.usePython h2).
  { apply same_setting_strict_eq, V. cbn. auto. }
  assert (PU : Config.pythonUrl h1 = Config.pythonUrl h2).
  { apply same_setting_or_else, V. cbn. auto. }
  assert (KF : Config.keyFound h1 = Config.keyFound h2).
  { apply same_setting_truthy, V. cbn. auto 6. }
  assert (TM : Config.targetModel h1 model = Config.targetModel h2 model).
  { unfold Config.targetModel. now rewrite UL, UP. }
  destruct (run_ext h1 model h2 model sp um st st) as (C & D & S).
  - intros []; cbn; assumption.
  - intros [] E; cbn [Config.request_to Config.enabled] in *.
    + now rewrite PU.
    + now rewrite LU, TM.
    + f_equal. f_equal. apply same_setting_truthy_eq; [ | exact E].
      apply V. cbn. auto 6.
  - intros pre req. apply NW.
  - split; [ | split; [exact C | exact D]].
    apply S. unfold the_diagnostic. now rewrite LU, TM, UL, UP, KF.
Qed.

(** X5 at [Examples.local_with_blanks] and [Examples.local_hello]. *)
Lemma X5_empty_is_unset_witness :
  settles "gpt-4o" "Be brief." "Hello" Examples.local_with_blanks no_effects
    = settles "gpt-4o" "Be brief." "Hello" Examples.local_hello no_effects
  /\ calls "gpt-4o" "Be brief." "Hello" Examples.local_with_blanks no_effects
     = calls "gpt-4o" "Be brief." "Hello" Examples.local_hello no_effects
  /\ delay "gpt-4o" "Be brief." "Hello" Examples.local_with_blanks no_effects
     = delay "gpt-4o" "Be brief." "Hello" Examples.local_hello no_effects.
Proof.
  apply (X5_empty_is_unset "gpt-4o" "Be brief." "Hello"
           Examples.local_with_blanks Examples.local_hello no_effects).
  - intros var [<- | [<- | [<- | [<- | [<- | []]]]]];
      first [left; reflexivity | right; split; reflexivity].
  - reflexivity.
Defined.


(** X7: when the Python backend is the only provider configured, what follows
    "**Python Backend Error**: " in the result is: the message of the
    rejection, when [fetch] rejects; "Python Server Error: " and the status
    text of the reply (not its code or body), when the status is not 2xx; the
    message of the parse error, when a 2xx body is not JSON; and after it
    comes the hint of line 38. *)
Theorem X7_python_error_message model sp um h st :
  process_env h "USE_PYTHON_BACKEND" = Some "true" ->
  process_env h "USE_LOCAL_LLM" <> Some "true" ->
  Js.truthy (process_env h "RAPIDAPI_KEY") = false ->
  (forall e,
     network h (sent st) (python_request (Config.pythonUrl h) sp um) = Rejected e ->
     settles model sp um h st
     = Normal (JStr ("**Python Backend Error**: " ++ message e ++ "

*Check Vercel Environment Variables and Render Server logs.*")))
  /\ (forall r,
        network h (sent st) (python_request (Config.pythonUrl h) sp um) = Resolved r ->
        ok r = false ->
        settles model sp um h st
        = Normal (JStr ("**Python Backend Error**: Python Server Error: " ++ statusText r ++ "

*Check Vercel Environment Variables and Render Server logs.*")))
  /\ (forall r e,
        network h (sent st) (python_request (Config.pythonUrl h) sp um) = Resolved r ->
        ok r = true -> body_json r = inl e ->
        settles model sp um h st
        = Normal (JStr ("**Python Backend Error**: " ++ message e ++ "

*Check Vercel Environment Variables and Render Server logs.*"))).
Proof.
  intros EP EL EK. apply strict_eq_true in EP. apply strict_eq_false in EL.
  assert (R : forall e,
            attempt Python
              (network h (sent st) (python_request (Config.pythonUrl h) sp um)) = inl e ->
            settles model sp um h st = Normal (JStr (python_error_text (message e)))).
  { intros e A. now apply (path_python_error h model sp um st e). }
  split; [ | split].
  - intros e N. rewrite (R e); [reflexivity | now rewrite N].
  - intros r N OK. rewrite (R (Error ("Python Server Error: " ++ statusText r))).
    + reflexivity.
    + rewrite N. cbn. now rewrite OK.
  - intros r e N OK J. rewrite (R e); [reflexivity | ].
    rewrite N. cbn. now rewrite OK, J.
Qed.

(** X7 at [Examples.python_bad_gateway]. *)
Lemma X7_python_error_message_witness :
  settles "gpt-4o" "Be brief." "Hello" Examples.python_bad_gateway no_effects
  = Normal (JStr "**Python Backend Error**: Python Server Error: Bad Gateway

*Check Vercel Environment Variables and Render Server logs.*").
Proof.
  destruct (X7_python_error_message "gpt-4o" "Be brief." "Hello"
              Examples.python_bad_gateway no_effects)
    as (_ & bad_status & _).
  - reflexivity.
  - discriminate.
  - reflexivity.
  - apply (bad_status (mkResponse 502 "Bad Gateway" (inr "") Examples.not_json));
      reflexivity.
Defined.

(** X8: every request carries the caller's two prompts unchanged: the Python
    backend gets [userMessage] as [prompt] and [systemPrompt] as
    [system_prompt]; the local LLM and RapidAPI get exactly two messages, the
    system prompt with role "system" and then the user message with role
    "user". *)
Theorem X8_prompts_sent_verbatim model sp um h st x :
  In x (calls model sp um h st) ->
  match site x with
  | Python =>
      read_path (body (request x)) ["prompt"] = inr (JStr um)
      /\ read_path (body (request x)) ["system_prompt"] = inr (JStr sp)
  | Local | Rapid =>
      read_path (body (request x)) ["messages"; "length"] = inr (JNum 2)
      /\ read_path (body (request x)) ["messages"; "0"; "role"] = inr (JStr "system")
      /\ read_path (body (request x)) ["messages"; "0"; "content"] = inr (JStr sp)
      /\ read_path (body (request x)) ["messages"; "1"; "role"] = inr (JStr "user")
      /\ read_path (body (request x)) ["messages"; "1"; "content"] = inr (JStr um)
  end.
Proof.
  intros I. rewrite calls_chain in I. apply in_split in I.
  destruct I as (pre & post & E).
  destruct (chain_members h model sp um _ _ _ _ _ E) as (_ & _ & X).
  rewrite X. unfold exchange. cbn [request site].
  destruct (site x); cbn [Config.request_to]; repeat split; reflexivity.
Qed.

(** X8 at [Examples.local_hello]. *)
Lemma X8_prompts_sent_verbatim_witness :
  read_path (body (local_request "http://localhost:11434/v1/chat/completions"
                     fixed_model "Be brief." "Hello"))
    ["messages"; "1"; "content"] = inr (JStr "Hello").
Proof.
  apply (X8_prompts_sent_verbatim "gpt-4o" "Be brief." "Hello" Examples.local_hello
           no_effects
           (mkExchange Local
              (local_request "http://localhost:11434/v1/chat/completions"
                 fixed_model "Be brief." "Hello")
              (Examples.completion "hi there"))
           (or_introl eq_refl)).
Defined.

(** X9: the dispatcher keeps no state of its own between calls: when the
    network's answers do not depend on what was exchanged before, a call
    returns the same, makes the same exchanges and waits as long whatever
    calls came before it. *)
Theorem X9_no_state_between_calls model sp um h st :
  (forall hist req, network h hist req = network h [] req) ->
  settles model sp um h st = settles model sp um h no_effects
  /\ calls model sp um h st = calls model sp um h no_effects
  /\ delay model sp um h st = delay model sp um h no_effects.
Proof.
  intros NW.
  destruct (run_ext h model h model sp um st no_effects) as (C & D & S).
  - reflexivity.
  - reflexivity.
  - intros pre req. rewrite (NW (sent st ++ pre)). now rewrite (NW (sent no_effects ++ pre)).
  - split; [now apply S | split; [exact C | exact D]].
Qed.

(** X9 at [Examples.local_hello], after a first call. *)
Lemma X9_no_state_between_calls_witness :
  settles "gpt-4o" "Be brief." "Again"
    Examples.local_hello
    (snd (generateContent "gpt-4o" "Be brief." "Hello" Examples.local_hello no_effects))
  = settles "gpt-4o" "Be brief." "Again" Examples.local_hello no_effects.
Proof.
  apply (X9_no_state_between_calls "gpt-4o" "Be brief." "Again" Examples.local_hello
           (snd (generateContent "gpt-4o" "Be brief." "Hello" Examples.local_hello
                   no_effects))).
  reflexivity.
Defined.

(** *** The console *)

Ltac close_log := cbn; rewrite <- ?app_assoc, ?app_nil_r; cbn; reflexivity.

(** Lines 16-41 on the console. *)
Lemma pythonStrategy_console useLocal pythonUrl key sp um h st :
  console (snd (pythonStrategy useLocal true pythonUrl key sp um h st))
  = console st
    ++ (LLog, [AStr ("Attempting Python Server call to " ++ pythonUrl)])
       :: failure_line LWarn "Python Server failed:"
            (attempt Python (network h (sent st) (python_request pythonUrl sp um))).
Proof.
  unfold pythonStrategy, try_catch, bind, fetch, console_log, console_warn,
    console_emit, when, await, attempt, failure_line, and_then, return_, throw, pure.
  cbn.
  destruct (negb useLocal && negb (Js.truthy key));
    destruct (network h (sent st) (python_request pythonUrl sp um)) as [e | r];
    repeat split_run; close_log.
Qed.

(** Lines 44-77 on the console. *)
Lemma localStrategy_console usePython localUrl targetModel key sp um h st :
  console (snd (localStrategy true usePython localUrl targetModel key sp um h st))
  = console st
    ++ (LLog, [AStr ("Attempting Local LLM call to " ++ localUrl
                     ++ " with model " ++ targetModel)])
       :: failure_line LWarn "Local LLM failed, falling back or erroring:"
            (attempt Local
               (network h (sent st) (local_request localUrl targetModel sp um)))
    ++ (if succeeded (mkExchange Local (local_request localUrl targetModel sp um)
                        (network h (sent st)
                           (local_request localUrl targetModel sp um)))
        then []
        else if mocks usePython key then [mock_notice] else []).
Proof.
  unfold localStrategy, mockResponse, async, sleep, try_catch, bind, fetch, console_log,
    console_warn, console_emit, when, await, succeeded, attempt, chat_content,
    failure_line, and_then, return_, throw, pure, mock_notice.
  fold (mocks usePython key). cbn.
  destruct (network h (sent st) (local_request localUrl targetModel sp um)) as [e | r];
    repeat split_run; close_log.
Qed.

(** Lines 80-110 on the console. *)
Lemma rapidStrategy_console key sp um h st :
  Js.truthy key = true ->
  console (snd (rapidStrategy key sp um h st))
  = console st
    ++ failure_line LError "RapidAPI Failed:"
         (attempt Rapid
            (network h (sent st) (rapid_request (Js.to_string key) sp um))).
Proof.
  intros E.
  unfold rapidStrategy, try_catch, bind, fetch, console_error, console_emit, when, await,
    attempt, chat_content, failure_line, and_then, return_, throw, pure.
  rewrite E. cbn.
  destruct (network h (sent st) (rapid_request (Js.to_string key) sp um)) as [e | r];
    repeat split_run; close_log.
Qed.

Lemma chain_success_flag h model sp um ps hist :
  existsb succeeded (fst (chain h model sp um ps hist))
  = match snd (chain h model sp um ps hist) with Some _ => true | None => false end.
Proof.
  pose proof (chain_value h model sp um ps hist) as V.
  destruct (snd (chain h model sp um ps hist)) as [v |].
  - destruct V as (x & I & A). apply existsb_exists. exists x. split; [exact I | ].
    unfold succeeded. now rewrite A.
  - apply not_true_is_false. intros E. apply existsb_exists in E.
    destruct E as (x & I & S). rewrite Forall_forall in V. specialize (V x I). congruence.
Qed.

Section ConsoleRun.
Variable h : Host.
Variables model systemPrompt userMessage : string.

Local Abbreviation exchange' := (exchange h model systemPrompt userMessage).
Local Abbreviation chain' := (chain h model systemPrompt userMessage).
Local Abbreviation from_rapid' := (from_rapid h model systemPrompt userMessage).
Local Abbreviation from_local' := (from_local h model systemPrompt userMessage).
Local Abbreviation from_python' := (from_python h model systemPrompt userMessage).
Local Abbreviation lines' := (lines_of h model).

(** The closing line of a chain that had no value. *)
Local Abbreviation closing' r notice :=
  (match r with Some _ => [] | None => [notice] end : list (LogLevel * list LogArg)).

Lemma from_rapid_console st :
  console (snd (from_rapid' h st))
  = console st ++ flat_map lines' (fst (chain' [Rapid] (sent st)))
    ++ closing' (snd (chain' [Rapid] (sent st))) no_provider_notice.
Proof.
  unfold from_rapid. rewrite chain_cons. cbn [Config.enabled chain].
  pose proof (eq_refl : Config.keyFound h = Js.truthy (Config.rapidApiKey h)) as KF.
  destruct (Js.truthy (Config.rapidApiKey h)) eqn:EK; rewrite KF.
  - destruct (rapidStrategy_on _ systemPrompt userMessage h st EK) as (st1 & R & _).
    pose proof (rapidStrategy_console _ systemPrompt userMessage h st EK) as L.
    cbv zeta in R. rewrite R in L. cbn [snd] in L.
    change (network h (sent st) _) with (outcome (exchange' (sent st) Rapid)) in R, L.
    destruct (attempt Rapid (outcome (exchange' (sent st) Rapid))) as [e | v] eqn:A;
      cbn [rapid_end] in R.
    + rewrite (bind_normal _ _ _ _ _ _ R). cbn. rewrite L. cbn.
      unfold lines_of. cbn [site exchange]. rewrite A. cbn.
      now rewrite <- app_assoc.
    + rewrite (bind_return _ _ _ _ _ _ R). cbn. rewrite L.
      unfold lines_of. cbn [site exchange]. now rewrite A.
  - rewrite (bind_normal _ _ _ _ _ _ (rapidStrategy_off _ _ _ _ _ EK)). reflexivity.
Qed.

Lemma from_local_console st :
  console (snd (from_local' h st))
  = console st ++ flat_map lines' (fst (chain' [Local; Rapid] (sent st)))
    ++ closing' (snd (chain' [Local; Rapid] (sent st)))
         (if local_only h then mock_notice else no_provider_notice).
Proof.
  unfold from_local, local_only. rewrite chain_cons. cbn [Config.enabled].
  destruct (Config.useLocal h) eqn:EL; cbn [andb].
  - destruct (localStrategy_on (Config.usePython h) (Config.localUrl h)
                (Config.targetModel h model) (Config.rapidApiKey h)
                systemPrompt userMessage h st) as (st1 & R & S & _).
    pose proof (localStrategy_console (Config.usePython h) (Config.localUrl h)
                  (Config.targetModel h model) (Config.rapidApiKey h)
                  systemPrompt userMessage h st) as L.
    cbv zeta in R, S. rewrite R in L. cbn [snd] in L.
    unfold succeeded in L. cbn [site outcome] in L.
    change (mkExchange Local _ _) with (exchange' (sent st) Local) in S.
    change (network h (sent st) _) with (outcome (exchange' (sent st) Local)) in R, L.
    assert (LL : lines' (exchange' (sent st) Local)
                 = (LLog, [AStr ("Attempting Local LLM call to " ++ Config.localUrl h
                                 ++ " with model " ++ Config.targetModel h model)])
                   :: failure_line LWarn "Local LLM failed, falling back or erroring:"
                        (attempt Local (outcome (exchange' (sent st) Local)))).
    { reflexivity. }
    destruct (attempt Local (outcome (exchange' (sent st) Local))) as [e | v] eqn:A;
      cbn [local_end] in R.
    + unfold mocks in R, L. fold (Config.keyFound h) in R, L.
      destruct (negb (Config.keyFound h) && negb (Config.usePython h)) eqn:EM.
      * rewrite (bind_return _ _ _ _ _ _ R). cbn [snd]. rewrite L.
        apply andb_prop in EM. destruct EM as [EK _]. apply negb_true_iff in EK.
        rewrite chain_cons. cbn [Config.enabled chain]. rewrite EK.
        cbn [fst snd flat_map]. rewrite LL. close_log.
      * rewrite (bind_normal _ _ _ _ _ _ R).
        rewrite from_rapid_console, L, S.
        destruct (chain' [Rapid] _) as [xs r]. cbn [fst snd flat_map].
        rewrite LL. destruct r; close_log.
    + rewrite (bind_return _ _ _ _ _ _ R). cbn [snd fst flat_map]. rewrite L, LL.
      close_log.
  - rewrite (bind_normal _ _ _ _ _ _ (localStrategy_off _ _ _ _ _ _ _ _)).
    apply from_rapid_console.
Qed.

Lemma from_python_console st :
  console (snd (from_python' h st))
  = console st ++ flat_map lines' (fst (chain' providers (sent st)))
    ++ closing_lines h (existsb succeeded (fst (chain' providers (sent st)))).
Proof.
  rewrite chain_success_flag.
  unfold from_python, closing_lines, python_only, providers.
  rewrite chain_cons. cbn [Config.enabled].
  destruct (Config.usePython h) eqn:EP; cbn [andb].
  - destruct (pythonStrategy_on (Config.useLocal h) (Config.pythonUrl h)
                (Config.rapidApiKey h) systemPrompt userMessage h st)
      as (st1 & R & S & _).
    pose proof (pythonStrategy_console (Config.useLocal h) (Config.pythonUrl h)
                  (Config.rapidApiKey h) systemPrompt userMessage h st) as L.
    cbv zeta in R, S. rewrite R in L. cbn [snd] in L.
    change (mkExchange Python _ _) with (exchange' (sent st) Python) in S.
    change (network h (sent st) _) with (outcome (exchange' (sent st) Python)) in R, L.
    assert (LL : lines' (exchange' (sent st) Python)
                 = (LLog, [AStr ("Attempting Python Server call to " ++ Config.pythonUrl h)])
                   :: failure_line LWarn "Python Server failed:"
                        (attempt Python (outcome (exchange' (sent st) Python)))).
    { reflexivity. }
    assert (LO : local_only h = false).
    { unfold local_only. rewrite EP. now rewrite andb_false_r. }
    destruct (attempt Python (outcome (exchange' (sent st) Python))) as [e | v] eqn:A;
      cbn [python_end] in R.
    + fold (Config.keyFound h) in R.
      destruct (negb (Config.useLocal h) && negb (Config.keyFound h)) eqn:ET.
      * rewrite (bind_return _ _ _ _ _ _ R). cbn [snd]. rewrite L.
        apply andb_prop in ET. destruct ET as [EL EK]. apply negb_true_iff in EL, EK.
        rewrite !chain_cons. cbn [Config.enabled chain]. rewrite EL, EK.
        cbn [fst snd flat_map]. rewrite LL. close_log.
      * rewrite (bind_normal _ _ _ _ _ _ R).
        rewrite from_local_console, L, S, LO.
        destruct (chain' [Local; Rapid] _) as [xs r]. cbn [fst snd flat_map].
        rewrite LL. destruct r; close_log.
    + rewrite (bind_return _ _ _ _ _ _ R). cbn [snd fst flat_map]. rewrite L, LL.
      close_log.
  - rewrite (bind_normal _ _ _ _ _ _ (pythonStrategy_off _ _ _ _ _ _ _)).
    rewrite from_local_console.
    destruct (snd (chain' [Local; Rapid] (sent st))); [reflexivity | ].
    now destruct (local_only h).
Qed.

End ConsoleRun.

Lemma async_state (b : M unit) h st : snd (async b h st) = snd (b h st).
Proof. unfold async. now destruct (b h st) as [[] st']. Qed.

(** The console of a call, from the exchanges it made. *)
Lemma console_of_call model sp um h st :
  logged model sp um h st
  = flat_map (lines_of h model) (calls model sp um h st)
    ++ closing_lines h (existsb succeeded (calls model sp um h st)).
Proof.
  rewrite calls_chain. unfold logged. rewrite generateContent_eq.
  fold (from_rapid h model sp um). fold (from_local h model sp um).
  fold (from_python h model sp um).
  rewrite async_state, from_python_console. apply skipn_length_app.
Qed.

(** X10: the console of a call holds, for each exchange in order, the
    "Attempting ..." line (Python backend and local LLM only) and, if the
    attempt failed, one line with the error caught (a warning for the Python
    backend and the local LLM, an error for RapidAPI); after them, unless a
    provider succeeded or the Python error string is returned, one closing
    warning: the mock's notice when the mock is returned, "No valid LLM
    provider found or all providers failed." when the diagnostic is. *)
Theorem X10_console_lines model sp um h st :
  logged model sp um h st
  = flat_map (lines_of h model) (calls model sp um h st)
    ++ (if existsb succeeded (calls model sp um h st) then []
        else if python_only h then []
        else if local_only h then [mock_notice]
        else [no_provider_notice]).
Proof. exact (console_of_call model sp um h st). Qed.

(** X11: no failure is silent: for every exchange of a call that failed, the
    console has a line with the error the [catch] block received, at level
    warn with the label of the strategy for the Python backend and the local
    LLM, at level error for RapidAPI. *)
Theorem X11_failures_are_logged model sp um h st x e :
  In x (calls model sp um h st) ->
  attempt (site x) (outcome x) = inl e ->
  In (match site x with
      | Python => (LWarn, [AStr "Python Server failed:"; AErr e])
      | Local => (LWarn, [AStr "Local LLM failed, falling back or erroring:"; AErr e])
      | Rapid => (LError, [AStr "RapidAPI Failed:"; AErr e])
      end)
     (logged model sp um h st).
Proof.
  intros I A. rewrite console_of_call. apply in_or_app. left.
  apply in_flat_map. exists x. split; [exact I | ].
  unfold lines_of. destruct (site x); rewrite A; cbn; auto.
Qed.

(** X11 at [Examples.rapid_denied]. *)
Lemma X11_failures_are_logged_witness :
  In (LError,
      [AStr "RapidAPI Failed:";
       AErr (Error ("RapidAPI Error: " ++ Examples.object_text "message" "Invalid API key"))])
     (logged "gpt-4o" "Be brief." "Hello" Examples.rapid_denied no_effects).
Proof.
  apply (X11_failures_are_logged "gpt-4o" "Be brief." "Hello" Examples.rapid_denied
           no_effects
           (mkExchange Rapid (rapid_request "k-123" "Be brief." "Hello")
              (Examples.reply 401 "Unauthorized"
                 (Examples.object_text "message" "Invalid API key")
                 (inr (JObj [("message", JStr "Invalid API key")]))))).
  - left. reflexivity.
  - reflexivity.
Defined.
